(** * novelWriter: the HTML text converter [nw/core/tohtml.py]

    A shallow embedding of the class [ToHtml] and proofs about its entity
    substitution, its token loop, its keyword formatting and the assembly
    of the saved document.

    A Python [str] is a sequence of Unicode code points: it is modelled as
    a list of code points, so that slicing, [len] and the ten characters
    of the entity table are what they are in the source. *)

From Stdlib Require Import NArith ZArith String Ascii.
From stdpp Require Import base option list gmap pretty sorting.

Open Scope N_scope.

(** ** Python strings *)

Abbreviation char := N.
Abbreviation str := (list N).

(** A string literal of the source, as its code points (the literals of
    the source are all ASCII). *)
Definition lit (s : string) : str := N_of_ascii <$> list_ascii_of_string s.
Arguments lit s%_string_scope : simpl never.

Module PyStr.

(** [s.startswith(p)] *)
Fixpoint startswith (s p : str) {struct p} : bool :=
  match p, s with
  | [], _ => true
  | _ :: _, [] => false
  | a :: p', b :: s' => (a =? b) && startswith s' p'
  end.

(** [s.endswith(p)] *)
Definition endswith (s p : str) : bool := startswith (reverse s) (reverse p).

(** [c.isspace()] for a one-character [str]: the code points Python
    treats as whitespace. *)
Definition isspace (c : char) : bool :=
  ((9 <=? c) && (c <=? 13)) || ((28 <=? c) && (c <=? 32))
  || (c =? 133) || (c =? 160) || (c =? 5760)
  || ((8192 <=? c) && (c <=? 8202))
  || (c =? 8232) || (c =? 8233) || (c =? 8239) || (c =? 8287) || (c =? 12288).

(** [s.rstrip()] *)
Fixpoint rstrip (s : str) : str :=
  match s with
  | [] => []
  | c :: r =>
      match rstrip r with
      | [] => if isspace c then [] else [c]
      | r' => c :: r'
      end
  end.

(** [sep.join(l)] *)
Fixpoint join (sep : str) (l : list str) : str :=
  match l with
  | [] => []
  | [x] => x
  | x :: r => x ++ sep ++ join sep r
  end.

(** [s * n] *)
Definition mul (s : str) (n : nat) : str := List.concat (replicate n s).

(** [s.replace(old, new)] for a non-empty [old], as at every call of the
    source: the occurrences of [old] are found from left to right and do
    not overlap. [skip] counts the characters of a match still to pass. *)
Fixpoint replace_from (old new : str) (skip : nat) (s : str) : str :=
  match s with
  | [] => []
  | c :: rest =>
      match skip with
      | S n => replace_from old new n rest
      | O =>
          if startswith s old
          then new ++ replace_from old new (pred (length old)) rest
          else c :: replace_from old new 0 rest
      end
  end.

Definition replace (s old new : str) : str := replace_from old new 0 s.

(** ["%d" % n] *)
Definition fmt_d (n : Z) : str := lit (pretty n).

(** ["%06d" % n]: zero padding to six characters, the sign included. *)
Definition zfill (w : nat) (d : str) : str :=
  replicate (w - length d)%nat 48 ++ d.

Definition fmt_06d (n : Z) : str :=
  if (n <? 0)%Z
  then lit "-" ++ zfill 5 (lit (pretty (Z.abs_N n)))
  else zfill 6 (lit (pretty (Z.abs_N n))).

End PyStr.

(** ** The regular expressions of [_buildRegEx]

    Both patterns are an alternation [k1|k2|...] of escaped literals.
    [re.sub] scans the text from left to right; at a position the
    alternatives are tried in the order they are written and the first
    one that matches is taken; the match is replaced by what the callback
    returns and the scan resumes after it; where nothing matches the
    character is copied. *)

Module Re.

Fixpoint first_alt (alts : list str) (s : str) : option str :=
  match alts with
  | [] => None
  | k :: alts' => if PyStr.startswith s k then Some k else first_alt alts' s
  end.

(** [pattern.sub(repl, s)], scanning; the callback may fail (a [KeyError]
    of its dictionary lookup), which ends the substitution. The
    alternatives are non-empty literals. *)
Fixpoint sub_from (alts : list str) (repl : str -> option str)
    (skip : nat) (s : str) : option str :=
  match s with
  | [] => Some []
  | c :: rest =>
      match skip with
      | S n => sub_from alts repl n rest
      | O =>
          match first_alt alts s with
          | Some m =>
              v ← repl m;
              out ← sub_from alts repl (pred (length m)) rest;
              Some (v ++ out)
          | None =>
              out ← sub_from alts repl 0 rest;
              Some (c :: out)
          end
      end
  end.

Definition sub (alts : list str) (repl : str -> option str) (s : str)
  : option str := sub_from alts repl 0 s.

End Re.

(** ** Python dictionaries whose order matters

    [repDict] and [revDict] are iterated to build the alternations, so
    their insertion order is part of the behaviour: they are association
    lists with the update-in-place of a Python [dict]. *)

Module Dict.

Abbreviation dict := (list (str * str)).

Fixpoint get (d : dict) (k : str) : option str :=
  match d with
  | [] => None
  | (k', v) :: d' => if bool_decide (k' = k) then Some v else get d' k
  end.

(** [d[k] = v]: an existing key keeps its place, a new key goes last. *)
Fixpoint set (d : dict) (k v : str) : dict :=
  match d with
  | [] => [(k, v)]
  | (k', v') :: d' =>
      if bool_decide (k' = k) then (k', v) :: d' else (k', v') :: set d' k v
  end.

(** [dict(items)] and a dictionary display [{k1: v1, ...}] *)
Definition of_items (items : list (str * str)) : dict :=
  foldl (fun d kv => set d kv.1 kv.2) [] items.

Definition keys (d : dict) : list str := d.*1.
Definition items (d : dict) : list (str * str) := d.

(** No string of the list is a prefix of a later or earlier one. *)
Fixpoint prefix_free (l : list str) : bool :=
  match l with
  | [] => true
  | v :: r =>
      forallb (fun w => negb (PyStr.startswith w v) && negb (PyStr.startswith v w)) r
      && prefix_free r
  end.

Fixpoint distinct (l : list str) : bool :=
  match l with
  | [] => true
  | v :: r => forallb (fun w => negb (bool_decide (v = w))) r && distinct r
  end.

(** What the substitution needs of a table of (character, entity) pairs:
    the keys are distinct and not empty and the ampersand is one of them;
    every entity starts with an ampersand and none is a prefix of
    another. *)
Definition table_ok (t : list (str * str)) : bool :=
  distinct t.*1
  && forallb (fun k => (0 <? length k)%nat) t.*1
  && bool_decide (lit "&" ∈ t.*1)
  && forallb (fun v => PyStr.startswith v (lit "&")) t.*2
  && prefix_free t.*2.

End Dict.

(** ** The constants the class imports

    [nwUnicode], [nwLabels] and [nwKeyWords] come from [nw.constants], and
    the style bits [A_*] from the parent class [Tokenizer]. The converter
    is stated over any values of them. *)

Class nwUnicode := {
  U_ENDASH : str; U_EMDASH : str; U_HELLIP : str; U_NBSP : str;
  U_THSP : str; U_THNBSP : str; U_MAPOSS : str;
  H_ENDASH : str; H_EMDASH : str; H_HELLIP : str; H_NBSP : str;
  H_THSP : str; H_THNBSP : str; H_RSQUO : str
}.

Class nwLabels := { KEY_NAME : gmap str str }.

Class nwKeyWords := { TAG_KEY : str }.

Class TokenizerBits := {
  A_LEFT : N; A_RIGHT : N; A_CENTRE : N; A_JUSTIFY : N;
  A_PBB : N; A_PBB_AUT : N; A_PBA : N; A_PBA_AUT : N;
  A_Z_TOPMRG : N; A_Z_BTMMRG : N
}.

(** The generation modes [M_PREVIEW], [M_EXPORT], [M_EBOOK]. *)
Inductive GenMode := M_PREVIEW | M_EXPORT | M_EBOOK.

Global Instance GenMode_eq_dec : EqDecision GenMode.
Proof. solve_decision. Defined.

(** The token types [T_*] and the format kinds [FMT_*] of the tokenizer. *)
Inductive TokenType :=
  | T_EMPTY | T_SYNOPSIS | T_COMMENT | T_KEYWORD | T_TITLE
  | T_HEAD1 | T_HEAD2 | T_HEAD3 | T_HEAD4 | T_TEXT | T_SEP | T_SKIP.

Global Instance TokenType_eq_dec : EqDecision TokenType.
Proof. solve_decision. Defined.

Inductive Fmt := FMT_B_B | FMT_B_E | FMT_I_B | FMT_I_E | FMT_D_B | FMT_D_E.

(** A token [(tType, tLine, tText, tFormat, tStyle)]; a format entry is
    [(xPos, xLen, xFmt)] with non-negative position and length; [tStyle]
    is [None] or a bit set. *)
Record Token := mkToken {
  tType : TokenType;
  tLine : Z;
  tText : str;
  tFormat : list (nat * nat * Fmt);
  tStyle : option N
}.

(** The attributes of a [ToHtml] object that its methods read or write,
    those inherited from [Tokenizer] included. [lineHeight100] stands for
    [round(100 * self.lineHeight)], which the source computes in floating
    point. [scanThis] is [theParent.theIndex.scanThis]. *)
Record ToHtml := mkToHtml {
  genMode : GenMode;
  cssStyles : bool;
  fullHTML : list str;
  theText : str;
  theMarkdown : list str;
  keepMarkdown : bool;
  theTokens : list Token;
  theResult : str;
  isNovel : bool;
  linkHeaders : bool;
  doKeywords : bool;
  doComments : bool;
  doSynopsis : bool;
  doJustify : bool;
  textFont : str;
  textSize : Z;
  lineHeight100 : Z;
  projName : str;
  scanThis : str -> bool * list str * list nat
}.

Definition set_theText (self : ToHtml) (v : str) : ToHtml :=
  mkToHtml (genMode self) (cssStyles self) (fullHTML self) v
    (theMarkdown self) (keepMarkdown self) (theTokens self) (theResult self)
    (isNovel self) (linkHeaders self) (doKeywords self) (doComments self)
    (doSynopsis self) (doJustify self) (textFont self) (textSize self)
    (lineHeight100 self) (projName self) (scanThis self).

Definition set_theMarkdown (self : ToHtml) (v : list str) : ToHtml :=
  mkToHtml (genMode self) (cssStyles self) (fullHTML self) (theText self)
    v (keepMarkdown self) (theTokens self) (theResult self)
    (isNovel self) (linkHeaders self) (doKeywords self) (doComments self)
    (doSynopsis self) (doJustify self) (textFont self) (textSize self)
    (lineHeight100 self) (projName self) (scanThis self).

Definition set_theTokens (self : ToHtml) (v : list Token) : ToHtml :=
  mkToHtml (genMode self) (cssStyles self) (fullHTML self) (theText self)
    (theMarkdown self) (keepMarkdown self) v (theResult self)
    (isNovel self) (linkHeaders self) (doKeywords self) (doComments self)
    (doSynopsis self) (doJustify self) (textFont self) (textSize self)
    (lineHeight100 self) (projName self) (scanThis self).

Definition set_theResult (self : ToHtml) (v : str) : ToHtml :=
  mkToHtml (genMode self) (cssStyles self) (fullHTML self) (theText self)
    (theMarkdown self) (keepMarkdown self) (theTokens self) v
    (isNovel self) (linkHeaders self) (doKeywords self) (doComments self)
    (doSynopsis self) (doJustify self) (textFont self) (textSize self)
    (lineHeight100 self) (projName self) (scanThis self).

Definition set_fullHTML (self : ToHtml) (v : list str) : ToHtml :=
  mkToHtml (genMode self) (cssStyles self) v (theText self)
    (theMarkdown self) (keepMarkdown self) (theTokens self) (theResult self)
    (isNovel self) (linkHeaders self) (doKeywords self) (doComments self)
    (doSynopsis self) (doJustify self) (textFont self) (textSize self)
    (lineHeight100 self) (projName self) (scanThis self).

(** The local state of the loop of [doConvert]. *)
Record LoopState := mkLoop {
  thisPar : list str;
  parStyle : option str;
  tmpResult : list str;
  hasHardBreak : bool
}.

Definition nl : str := [10].
Definition tab : str := [9].

Section ToHtmlClass.

Context {uni : nwUnicode} {labels : nwLabels} {keywords : nwKeyWords}
        {bits : TokenizerBits}.

(** *** [__init__] and [_buildRegEx] *)

(** The entries of the display [self.repDict = {...}], as written. *)
Definition repItems : list (str * str) :=
  [ (lit "<", lit "&lt;");
    (lit ">", lit "&gt;");
    (lit "&", lit "&amp;");
    (U_ENDASH, H_ENDASH);
    (U_EMDASH, H_EMDASH);
    (U_HELLIP, H_HELLIP);
    (U_NBSP, H_NBSP);
    (U_THSP, H_THSP);
    (U_THNBSP, H_THNBSP);
    (U_MAPOSS, H_RSQUO) ].

Definition repDict : Dict.dict := Dict.of_items repItems.

(** [dict(map(reversed, self.repDict.items()))] *)
Definition revDict : Dict.dict :=
  Dict.of_items ((fun kv => (kv.2, kv.1)) <$> Dict.items repDict).

(** The alternatives of the two compiled patterns, in the order of
    ["|".join(...)]; [re.escape] makes each key a literal. *)
Definition reReplace : list str := Dict.keys repDict.
Definition reReverse : list str := Dict.keys revDict.

(** *** [doAutoReplace] and [doPostProcessing]

    Each first runs the method of the same name of [Tokenizer]; what
    follows is the part [ToHtml] adds, on the object that call leaves. *)

Definition encode (text : str) : option str :=
  Re.sub reReplace (fun m => Dict.get repDict m) text.

Definition decode (text : str) : option str :=
  Re.sub reReverse (fun m => Dict.get revDict m) text.

Definition doAutoReplace (self : ToHtml) : option ToHtml :=
  t ← encode (theText self);
  Some (set_theText self t).

(** [self.theMarkdown[-1]] raises [IndexError] on an empty list. *)
Definition doPostProcessing (self : ToHtml) : option ToHtml :=
  if bool_decide (genMode self = M_PREVIEW) then Some self
  else if keepMarkdown self then
    md ← last (theMarkdown self);
    t ← decode md;
    Some (set_theMarkdown self (removelast (theMarkdown self) ++ [t]))
  else Some self.

(** *** [doConvert] *)

Definition htmlTags (mode : GenMode) (xFmt : Fmt) : str :=
  if bool_decide (mode = M_PREVIEW) then
    match xFmt with
    | FMT_B_B => lit "<b>"
    | FMT_B_E => lit "</b>"
    | FMT_I_B => lit "<i>"
    | FMT_I_E => lit "</i>"
    | FMT_D_B => lit "<span style='text-decoration: line-through;'>"
    | FMT_D_E => lit "</span>"
    end
  else
    match xFmt with
    | FMT_B_B => lit "<strong>"
    | FMT_B_E => lit "</strong>"
    | FMT_I_B => lit "<em>"
    | FMT_I_E => lit "</em>"
    | FMT_D_B => lit "<del>"
    | FMT_D_E => lit "</del>"
    end.

(** The heading tags: for a novel file that is exported the titles move
    one level up. The source sets the five variables in the two branches
    of [if self.isNovel and self.genMode != self.M_PREVIEW]. *)
Definition bumpTitles (self : ToHtml) : bool :=
  isNovel self && negb (bool_decide (genMode self = M_PREVIEW)).

Definition h1Cl (self : ToHtml) : str :=
  if bumpTitles self then lit " class='title'" else lit "".
Definition h1 (self : ToHtml) : str :=
  if bumpTitles self then lit "h1" else lit "h1".
Definition h2 (self : ToHtml) : str :=
  if bumpTitles self then lit "h1" else lit "h2".
Definition h3 (self : ToHtml) : str :=
  if bumpTitles self then lit "h2" else lit "h3".
Definition h4 (self : ToHtml) : str :=
  if bumpTitles self then lit "h3" else lit "h4".

(** [tStyle & flag] as a condition *)
Definition has (tStyle flag : N) : bool := negb (N.land tStyle flag =? 0).

Definition aStyle (self : ToHtml) (tStyle : option N) : list str :=
  match tStyle with
  | Some s =>
      if cssStyles self then
        (if has s A_LEFT then [lit "text-align: left;"]
         else if has s A_RIGHT then [lit "text-align: right;"]
         else if has s A_CENTRE then [lit "text-align: center;"]
         else if has s A_JUSTIFY then [lit "text-align: justify;"]
         else [])
        ++ (if has s A_PBB then [lit "page-break-before: always;"]
            else if has s A_PBB_AUT then [lit "page-break-before: auto;"]
            else [])
        ++ (if has s A_PBA then [lit "page-break-after: always;"]
            else if has s A_PBA_AUT then [lit "page-break-after: auto;"]
            else [])
        ++ (if has s A_Z_BTMMRG then [lit "margin-bottom: 0;"] else [])
        ++ (if has s A_Z_TOPMRG then [lit "margin-top: 0;"] else [])
      else []
  | None => []
  end.

Definition hStyle (self : ToHtml) (tStyle : option N) : str :=
  let a := aStyle self tStyle in
  if (0 <? length a)%nat
  then lit " style='" ++ PyStr.join (lit " ") a ++ lit "'"
  else lit "".

Definition aNm (self : ToHtml) (tLine : Z) : str :=
  if linkHeaders self
  then lit "<a name='T" ++ PyStr.fmt_06d tLine ++ lit "'></a>"
  else lit "".

(** One turn of [tTemp = tTemp[:xPos] + htmlTags[xFmt] + tTemp[xPos+xLen:]] *)
Definition replaceSpan (mode : GenMode) (tTemp : str)
    (x : nat * nat * Fmt) : str :=
  let '(xPos, xLen, xFmt) := x in
  take xPos tTemp ++ htmlTags mode xFmt ++ drop (xPos + xLen) tTemp.

(** [for xPos, xLen, xFmt in reversed(tFormat): ...] *)
Definition applySpans (mode : GenMode) (tText : str)
    (tFormat : list (nat * nat * Fmt)) : str :=
  foldl (replaceSpan mode) tText (reverse tFormat).

Definition _formatSynopsis (self : ToHtml) (tText : str) : str :=
  if bool_decide (genMode self = M_PREVIEW)
  then lit "<p class='comment'><span class='synopsis'>Synopsis:</span> "
       ++ tText ++ lit "</p>" ++ nl
  else lit "<p class='synopsis'><strong>Synopsis:</strong> "
       ++ tText ++ lit "</p>" ++ nl.

Definition _formatComments (self : ToHtml) (tText : str) : str :=
  if bool_decide (genMode self = M_PREVIEW)
  then lit "<p class='comment'>" ++ tText ++ lit "</p>" ++ nl
  else lit "<p class='comment'><strong>Comment:</strong> "
       ++ tText ++ lit "</p>" ++ nl.

Definition tagAnchor (tTag : str) : str :=
  lit "<a name='tag_" ++ tTag ++ lit "'>" ++ tTag ++ lit "</a>".

Definition previewRef (kind tTag : str) : str :=
  lit "<a href='#" ++ kind ++ lit "=" ++ tTag ++ lit "'>" ++ tTag ++ lit "</a>".

Definition exportRef (tTag : str) : str :=
  lit "<a href='#tag_" ++ tTag ++ lit "'>" ++ tTag ++ lit "</a>".

Definition _formatKeywords (self : ToHtml) (tText : str) : str :=
  let '(isValid, theBits, thePos) := scanThis self (lit "@" ++ tText) in
  if negb isValid || bool_decide (theBits = []) then lit ""
  else
    match theBits with
    | [] => lit ""
    | bit0 :: values =>
        match KEY_NAME !! bit0 with
        | Some label =>
            let retText := lit "<span class='tags'>" ++ label ++ lit ":</span> " in
            if (1 <? length theBits)%nat then
              if bool_decide (bit0 = TAG_KEY) then
                retText ++ tagAnchor (default [] (head values))
              else if bool_decide (genMode self = M_PREVIEW) then
                retText ++ PyStr.join (lit ", ") (previewRef (drop 1 bit0) <$> values)
              else
                retText ++ PyStr.join (lit ", ") (exportRef <$> values)
            else retText
        | None => lit ""
        end
    end.

Definition heading (tag cls style anchor tHead : str) : str :=
  lit "<" ++ tag ++ cls ++ style ++ lit ">" ++ anchor ++ tHead
  ++ lit "</" ++ tag ++ lit ">" ++ nl.

(** The body of [for tType, tLine, tText, tFormat, tStyle in self.theTokens] *)
Definition convertToken (self : ToHtml) (st : LoopState) (tok : Token)
  : LoopState :=
  let hSt := hStyle self (tStyle tok) in
  let anchor := aNm self (tLine tok) in
  let tHead := PyStr.replace (tText tok) (lit "\\") (lit "<br/>") in
  let emit frag :=
    mkLoop (thisPar st) (parStyle st) (tmpResult st ++ [frag]) (hasHardBreak st) in
  match tType tok with
  | T_EMPTY =>
      let pSt := default (lit "") (parStyle st) in
      let parClass :=
        if hasHardBreak st && cssStyles self then lit " class='break'" else lit "" in
      let res :=
        if (0 <? length (thisPar st))%nat then
          tmpResult st ++
            [lit "<p" ++ pSt ++ parClass ++ lit ">"
             ++ PyStr.rstrip (List.concat (thisPar st)) ++ lit "</p>" ++ nl]
        else tmpResult st in
      mkLoop [] None res false
  | T_TITLE => emit (heading (lit "h1") (lit " class='title'") hSt anchor tHead)
  | T_HEAD1 => emit (heading (h1 self) (h1Cl self) hSt anchor tHead)
  | T_HEAD2 => emit (heading (h2 self) (lit "") hSt anchor tHead)
  | T_HEAD3 => emit (heading (h3 self) (lit "") hSt anchor tHead)
  | T_HEAD4 => emit (heading (h4 self) (lit "") hSt anchor tHead)
  | T_SEP => emit (lit "<p class='sep'>" ++ tText tok ++ lit "</p>" ++ nl)
  | T_SKIP => emit (lit "<p class='skip'>&nbsp;</p>" ++ nl)
  | T_TEXT =>
      let pSt := match parStyle st with None => Some hSt | Some p => Some p end in
      let tTemp := applySpans (genMode self) (tText tok) (tFormat tok) in
      if PyStr.endswith (tText tok) (lit "  ")
      then mkLoop (thisPar st ++ [PyStr.rstrip tTemp ++ lit "<br/>"]) pSt
                  (tmpResult st) true
      else mkLoop (thisPar st ++ [PyStr.rstrip tTemp ++ lit " "]) pSt
                  (tmpResult st) (hasHardBreak st)
  | T_SYNOPSIS =>
      if doSynopsis self then emit (_formatSynopsis self (tText tok)) else st
  | T_COMMENT =>
      if doComments self then emit (_formatComments self (tText tok)) else st
  | T_KEYWORD =>
      if doKeywords self
      then emit (lit "<p" ++ hSt ++ lit ">" ++ _formatKeywords self (tText tok)
                 ++ lit "</p>" ++ nl)
      else st
  end.

Definition loopInit : LoopState := mkLoop [] None [] false.

Definition runTokens (self : ToHtml) (st : LoopState) (toks : list Token)
  : LoopState := foldl (convertToken self) st toks.

Definition doConvert (self : ToHtml) : ToHtml :=
  let st := runTokens self loopInit (theTokens self) in
  let self1 := set_theResult self (List.concat (tmpResult st)) in
  if negb (bool_decide (genMode self1 = M_PREVIEW))
  then set_fullHTML self1 (fullHTML self1 ++ [theResult self1])
  else self1.

(** *** [getStyleSheet], [replaceTabs] and [saveHTML5] *)

Definition getStyleSheet (self : ToHtml) : list str :=
  if negb (cssStyles self) then []
  else
    let textAlign := if doJustify self then lit "justify" else lit "left" in
    [ lit "body {font-family: '" ++ textFont self ++ lit "'; font-size: "
        ++ PyStr.fmt_d (textSize self) ++ lit "pt;}";
      lit "p {text-align: " ++ textAlign ++ lit "; line-height: "
        ++ PyStr.fmt_d (lineHeight100 self) ++ lit "%;}";
      lit "h1, h2 {color: rgb(66, 113, 174);}";
      lit "h3, h4 {color: rgb(50, 50, 50);}";
      lit "h1, h2, h3, h4 {page-break-after: avoid;}";
      lit "a {color: rgb(66, 113, 174);}";
      lit ".title {font-size: 2.5em;}";
      lit ".tags {color: rgb(245, 135, 31); font-weight: bold;}";
      lit ".break {text-align: left;}";
      lit ".sep {text-align: center; margin-top: 1em; margin-bottom: 1em;}";
      lit ".skip {margin-top: 1em; margin-bottom: 1em;}";
      lit ".synopsis {font-style: italic;}";
      lit ".comment {font-style: italic; color: rgb(100, 100, 100);}" ].

(** [replaceTabs(self, nSpaces=8, spaceChar="&nbsp;")]: a call without
    arguments is [replaceTabs self 8 (lit "&nbsp;")]. *)
Definition replaceTabs (self : ToHtml) (nSpaces : nat) (spaceChar : str)
  : ToHtml :=
  let eightSpace := PyStr.mul spaceChar nSpaces in
  set_fullHTML self
    ((fun aLine => PyStr.replace aLine tab eightSpace) <$> fullHTML self).

(** The text of the document around its three fields. *)
Definition envelope (projTitle htmlStyle bodyText : str) : str :=
  lit "<!DOCTYPE html>" ++ nl
  ++ lit "<html>" ++ nl
  ++ lit "<head>" ++ nl
  ++ lit "<meta charset='utf-8'>" ++ nl
  ++ lit "<title>" ++ projTitle ++ lit "</title>" ++ nl
  ++ lit "</head>" ++ nl
  ++ lit "<style>" ++ nl
  ++ htmlStyle ++ nl
  ++ lit "</style>" ++ nl
  ++ lit "<body>" ++ nl
  ++ lit "<article>" ++ nl
  ++ bodyText ++ nl
  ++ lit "</article>" ++ nl
  ++ lit "</body>" ++ nl
  ++ lit "</html>" ++ nl.

(** [saveHTML5]: the text written to the file at [savePath]. *)
Definition saveHTML5 (self : ToHtml) : str :=
  let theStyle :=
    getStyleSheet self ++ [lit "article {width: 800px; margin: 40px auto;}"] in
  let bodyText := List.concat (fullHTML self) in
  let bodyText := PyStr.rstrip (PyStr.replace bodyText tab (lit "&#09;")) in
  envelope (projName self) (PyStr.join nl theStyle) bodyText.

End ToHtmlClass.

(** ** The specification's reading of three operations *)

(** Span application as the specification describes it: every span
    [[position, position+length)] of the original text is replaced by its
    delimiter, the text between spans is kept. The spans are walked from
    left to right, [off] being the position already reached. *)
Fixpoint spliceFrom (mode : GenMode) (off : nat) (text : str)
    (spans : list (nat * nat * Fmt)) : str :=
  match spans with
  | [] => drop off text
  | (p, l, f) :: rest =>
      take (p - off) (drop off text) ++ htmlTags mode f
      ++ spliceFrom mode (p + l) text rest
  end.

Definition splice (mode : GenMode) (text : str)
    (spans : list (nat * nat * Fmt)) : str := spliceFrom mode 0 text spans.

(** Spans in ascending position order, not overlapping, inside a text of
    length [len]. *)
Fixpoint spansOk (off len : nat) (spans : list (nat * nat * Fmt)) : bool :=
  match spans with
  | [] => true
  | (p, l, _) :: rest =>
      (off <=? p)%nat && (p + l <=? len)%nat && spansOk (p + l) len rest
  end.

(** Assembly as the specification describes it: the tabs of the
    concatenated body become eight placeholder space entities. *)
Definition assembleSpec (self : ToHtml) : str :=
  let theStyle :=
    getStyleSheet self ++ [lit "article {width: 800px; margin: 40px auto;}"] in
  let bodyText := List.concat (fullHTML self) in
  let bodyText :=
    PyStr.rstrip (PyStr.replace bodyText tab (PyStr.mul (lit "&nbsp;") 8)) in
  envelope (projName self) (PyStr.join nl theStyle) bodyText.

(** The rendering of the values of a keyword line as the specification
    describes it: a named anchor for the tag definition, hyperlinks for
    every other keyword. *)
Definition keywordLinks {keywords : nwKeyWords} (self : ToHtml)
    (bit0 : str) (values : list str) : str :=
  if bool_decide (bit0 = TAG_KEY) then tagAnchor (default [] (head values))
  else if bool_decide (genMode self = M_PREVIEW)
       then PyStr.join (lit ", ") (previewRef (drop 1 bit0) <$> values)
       else PyStr.join (lit ", ") (exportRef <$> values).

(** ** Predicates on tokens and loop states used in the statements *)

(** A token without style flags: [tStyle] is [None] or the empty bit set. *)
Definition noFlags (tStyle : option N) : bool :=
  match tStyle with None => true | Some s => s =? 0 end.

Definition isText (tok : Token) : bool := bool_decide (tType tok = T_TEXT).

Definition notEmpty (tok : Token) : bool :=
  negb (bool_decide (tType tok = T_EMPTY)).

Definition isHeading (tok : Token) : bool :=
  match tType tok with
  | T_TITLE | T_HEAD1 | T_HEAD2 | T_HEAD3 | T_HEAD4 => true
  | _ => false
  end.

(** The loop state [st] with the fragments [out] in front of its output. *)
Definition withOutput (out : list str) (st : LoopState) : LoopState :=
  mkLoop (thisPar st) (parStyle st) (out ++ tmpResult st) (hasHardBreak st).

(** ** An instance of the imported constants

    The module [nw.constants] and the class [Tokenizer] are not among the
    sources at hand. The instance below serves to run the definitions on
    concrete inputs. *)

(** Modelled from the spec: the constants of [nwUnicode], missing here;
    the characters are the ones the specification names (en dash, em dash,
    ellipsis, non-breaking space, thin space, thin non-breaking space,
    modifier apostrophe), each with an HTML entity. *)
Definition unicodeValues : nwUnicode := {|
  U_ENDASH := [8211]; U_EMDASH := [8212]; U_HELLIP := [8230];
  U_NBSP := [160]; U_THSP := [8201]; U_THNBSP := [8239]; U_MAPOSS := [700];
  H_ENDASH := lit "&ndash;"; H_EMDASH := lit "&mdash;";
  H_HELLIP := lit "&hellip;"; H_NBSP := lit "&nbsp;";
  H_THSP := lit "&thinsp;"; H_THNBSP := lit "&#8239;";
  H_RSQUO := lit "&rsquo;"
|}.

(** Modelled from the spec: the fixed label table [nwLabels.KEY_NAME],
    missing here, from a keyword to its human-readable label. *)
Definition labelValues : nwLabels := {|
  KEY_NAME :=
    list_to_map [
      (lit "@tag", lit "Tag");
      (lit "@pov", lit "Point of View");
      (lit "@focus", lit "Focus");
      (lit "@char", lit "Characters");
      (lit "@plot", lit "Plot");
      (lit "@time", lit "Timeline");
      (lit "@location", lit "Locations");
      (lit "@object", lit "Objects");
      (lit "@entity", lit "Entities");
      (lit "@custom", lit "Custom") ]
|}.

(** Modelled from the spec: the tag-definition keyword
    [nwKeyWords.TAG_KEY], missing here. *)
Definition keywordValues : nwKeyWords := {| TAG_KEY := lit "@tag" |}.

(** Modelled from the spec: the style flags of [Tokenizer], missing here,
    one bit for each flag of the bit set. *)
Definition bitValues : TokenizerBits := {|
  A_LEFT := 1; A_RIGHT := 2; A_CENTRE := 4; A_JUSTIFY := 8;
  A_PBB := 16; A_PBB_AUT := 32; A_PBA := 64; A_PBA_AUT := 128;
  A_Z_TOPMRG := 256; A_Z_BTMMRG := 512
|}.

(** An index that reports the segments [theBits] for every line, valid
    when there are any; a converter object around it; and some tokens. *)
Definition constIndex (theBits : list str) (aLine : str)
  : bool * list str * list nat :=
  (bool_decide (theBits ≠ []), theBits, []).

Definition sampleObject (mode : GenMode) (css novel : bool) (html : list str)
    (toks : list Token) (theBits : list str) : ToHtml :=
  mkToHtml mode css html [] [] false toks [] novel true true true true
    false (lit "Serif") 11 115 (lit "Sample") (constIndex theBits).

Definition helloTok : Token := mkToken T_TEXT 1 (lit "Hello ") [] None.
Definition worldTok : Token := mkToken T_TEXT 2 (lit "world.") [] (Some 0).
Definition emptyTok : Token := mkToken T_EMPTY 3 [] [] None.
Definition breakTok : Token := mkToken T_TEXT 1 (lit "one  ") [] None.
Definition spanTok : Token :=
  mkToken T_TEXT 1 (lit "abcdef") [(0, 1, FMT_I_B); (4, 1, FMT_B_B)]%nat None.
Definition head2Tok : Token := mkToken T_HEAD2 7 (lit "Chapter") [] None.
Definition keywordTok : Token := mkToken T_KEYWORD 9 (lit "pov: alpha") [] None.

(** ** The remaining methods of the class *)

(** [__init__], after [Tokenizer.__init__] has made the object [base]:
    export mode, CSS styles on, no accumulated document. The dictionaries
    and patterns it builds are [repDict], [revDict], [reReplace] and
    [reReverse] above. *)
Definition __init__ (base : ToHtml) : ToHtml :=
  mkToHtml M_EXPORT true [] (theText base)
    (theMarkdown base) (keepMarkdown base) (theTokens base) (theResult base)
    (isNovel base) (linkHeaders base) (doKeywords base) (doComments base)
    (doSynopsis base) (doJustify base) (textFont base) (textSize base)
    (lineHeight100 base) (projName base) (scanThis base).

(** [setPreview(doComments, doSynopsis)] *)
Definition setPreview (self : ToHtml) (doComments' doSynopsis' : bool) : ToHtml :=
  mkToHtml M_PREVIEW (cssStyles self) (fullHTML self) (theText self)
    (theMarkdown self) (keepMarkdown self) (theTokens self) (theResult self)
    (isNovel self) (linkHeaders self) true doComments'
    doSynopsis' (doJustify self) (textFont self) (textSize self)
    (lineHeight100 self) (projName self) (scanThis self).

(** [setStyles(cssStyles)] *)
Definition setStyles (self : ToHtml) (cssStyles' : bool) : ToHtml :=
  mkToHtml (genMode self) cssStyles' (fullHTML self) (theText self)
    (theMarkdown self) (keepMarkdown self) (theTokens self) (theResult self)
    (isNovel self) (linkHeaders self) (doKeywords self) (doComments self)
    (doSynopsis self) (doJustify self) (textFont self) (textSize self)
    (lineHeight100 self) (projName self) (scanThis self).

(** [getFullResultSize]: [sum([len(x) for x in self.fullHTML])] *)
Definition getFullResultSize (self : ToHtml) : nat :=
  sum_list (length <$> fullHTML self).

(** ** Further notions used in the statements *)

(** Rendering documents one after the other on one object, as a build
    does: the tokens of each document are set and [doConvert] is called. *)
Definition renderAll {labels : nwLabels} {keywords : nwKeyWords}
    {bits : TokenizerBits} (self : ToHtml) (docs : list (list Token)) : ToHtml :=
  foldl (fun s toks => doConvert (set_theTokens s toks)) self docs.

(** A token the loop has a branch for under the settings of [self]. *)
Definition enabled (self : ToHtml) (tok : Token) : bool :=
  match tType tok with
  | T_SYNOPSIS => doSynopsis self
  | T_COMMENT => doComments self
  | T_KEYWORD => doKeywords self
  | _ => true
  end.

(** The token with [tStyle] set to [None]. *)
Definition clearStyle (tok : Token) : Token :=
  mkToken (tType tok) (tLine tok) (tText tok) (tFormat tok) None.

(** The text of the token ends with two spaces. *)
Definition hardBreak (tok : Token) : bool :=
  PyStr.endswith (tText tok) (lit "  ").

(** The line a text token adds to the paragraph buffer. *)
Definition lineOf (self : ToHtml) (tok : Token) : str :=
  PyStr.rstrip (applySpans (genMode self) (tText tok) (tFormat tok))
  ++ (if hardBreak tok then lit "<br/>" else lit " ").

(** The characters the spans take out, and the characters of their tags. *)
Definition sumLen (spans : list (nat * nat * Fmt)) : nat :=
  sum_list ((fun x => x.1.2) <$> spans).

Definition sumTags (mode : GenMode) (spans : list (nat * nat * Fmt)) : nat :=
  sum_list ((fun x => length (htmlTags mode x.2)) <$> spans).

(** No entity of the table holds an angle bracket. *)
Definition angleFree (t : list (str * str)) : bool :=
  forallb (fun v => forallb (fun c => negb (c =? 60) && negb (c =? 62)) v) t.*2.

(** Every string of the list is a single character. *)
Definition singleChars (l : list str) : bool :=
  forallb (fun k => (length k =? 1)%nat) l.

(** The string holds no tab. *)
Definition noTab (s : str) : bool := forallb (fun c => negb (c =? 9)) s.

(** An object that keeps its markdown, for the round trip on objects. *)
Definition markdownObject (md : list str) : ToHtml :=
  mkToHtml M_EXPORT true [] [] md true [] [] false true true true true
    false (lit "Serif") 11 115 (lit "Sample") (constIndex []).

(** * Proofs *)

(** ** Facts about the string operations *)

Section PyStrFacts.
Import PyStr.

Lemma startswith_prefix (s p : str) : startswith s p = true ↔ p `prefix_of` s.
Proof.
  revert s. induction p as [|a p IH]; intros s; simpl.
  - split; [intros _; apply prefix_nil | done].
  - destruct s as [|b s].
    + split; [done | intros H; by apply prefix_nil_not in H].
    + rewrite andb_true_iff, IH, N.eqb_eq. split.
      * intros [-> H]. by apply prefix_cons.
      * intros H. split; [by apply prefix_cons_inv_1 in H | by apply prefix_cons_inv_2 in H].
Qed.

Lemma startswith_false (s p : str) : startswith s p = false ↔ ¬ p `prefix_of` s.
Proof. rewrite <- startswith_prefix. destruct (startswith s p); naive_solver. Qed.

Lemma endswith_suffix (s p : str) : endswith s p = true ↔ p `suffix_of` s.
Proof. unfold endswith. rewrite startswith_prefix. symmetry; apply suffix_prefix_reverse. Qed.

End PyStrFacts.

(** ** Facts about the scanning substitution *)

Section ReFacts.
Import PyStr Re.
Context (alts : list str) (repl : str → option str).

Lemma first_alt_Some (s m : str) :
  first_alt alts s = Some m → m ∈ alts ∧ m `prefix_of` s.
Proof.
  induction alts as [|k ks IH]; simpl; [done|].
  destruct (startswith s k) eqn:E.
  - intros [= <-]. split; [left | by apply startswith_prefix].
  - intros H. destruct (IH H). split; [by right | done].
Qed.

Lemma first_alt_None (s : str) :
  first_alt alts s = None ↔ ∀ k, k ∈ alts → ¬ k `prefix_of` s.
Proof.
  induction alts as [|k ks IH]; simpl.
  - split; [intros _ k H; by apply not_elem_of_nil in H | done].
  - destruct (startswith s k) eqn:E.
    + split; [done|]. intros H. exfalso. apply (H k); [left|].
      by apply startswith_prefix.
    + rewrite IH. split.
      * intros H k' [->|Hin]%elem_of_cons; [by apply startswith_false | by apply H].
      * intros H k' Hin. apply H. by right.
Qed.

Lemma first_alt_ext (s s' : str) :
  (∀ k, k ∈ alts → (k `prefix_of` s ↔ k `prefix_of` s')) →
  first_alt alts s = first_alt alts s'.
Proof.
  induction alts as [|k ks IH]; simpl; [done|]. intros H.
  assert (startswith s k = startswith s' k) as ->.
  { apply eq_true_iff_eq. rewrite !startswith_prefix. apply H. left. }
  rewrite IH; [done|]. intros k' Hin. apply H. by right.
Qed.

Lemma sub_from_skip (n : nat) (s : str) :
  (n ≤ length s)%nat → sub_from alts repl n s = sub alts repl (drop n s).
Proof.
  revert n. induction s as [|c s IH]; intros n Hn.
  - by destruct n.
  - destruct n as [|n]; [done|]. simpl in *. apply IH. lia.
Qed.

Lemma sub_nil : sub alts repl [] = Some [].
Proof. done. Qed.

Lemma sub_match (m r : str) :
  first_alt alts (m ++ r) = Some m → m ≠ [] →
  sub alts repl (m ++ r)
  = v ← repl m; out ← sub alts repl r; Some (v ++ out).
Proof.
  intros H Hm. destruct m as [|c m]; [done|].
  unfold sub at 1. simpl app in *. simpl sub_from. rewrite H. simpl length.
  simpl pred. rewrite sub_from_skip by (rewrite length_app; lia).
  by rewrite drop_app_length.
Qed.

Lemma sub_copy (c : char) (r : str) :
  first_alt alts (c :: r) = None →
  sub alts repl (c :: r) = out ← sub alts repl r; Some (c :: out).
Proof. intros H. unfold sub at 1. simpl. simpl in H. by rewrite H. Qed.

Lemma prefix_before (k a b : str) (c : char) :
  c ∉ k → k `prefix_of` a ++ c :: b ↔ k `prefix_of` a.
Proof.
  intros Hc. split; [|by apply prefix_app_r].
  intros Hk.
  destruct (prefix_weak_total k a (a ++ c :: b) Hk) as [?|[k' ->]];
    [by apply prefix_app_r | done |].
  destruct Hk as [r Hr]. rewrite <- app_assoc in Hr.
  apply app_inv_head in Hr. destruct k' as [|x k'].
  - rewrite app_nil_r. done.
  - simplify_eq/=. exfalso. apply Hc. apply elem_of_app. right. left.
Qed.

(** A character that occurs in no alternative is copied, and the text on
    either side of it is substituted as it is on its own. *)
Lemma sub_outside (a b : str) (c : char) :
  [] ∉ alts → (∀ k, k ∈ alts → c ∉ k) →
  sub alts repl (a ++ c :: b)
  = ea ← sub alts repl a; eb ← sub alts repl b; Some (ea ++ c :: eb).
Proof.
  intros Hne Hc. remember (length a) as n eqn:Hn. revert a Hn.
  induction n as [n IH] using lt_wf_ind. intros a ->.
  destruct a as [|x a].
  - simpl app. rewrite sub_copy, sub_nil; [done|].
    apply first_alt_None. intros k Hk Hp. destruct k as [|y k]; [done|].
    apply prefix_cons_inv_1 in Hp as ->. apply (Hc _ Hk). left.
  - assert (first_alt alts ((x :: a) ++ c :: b) = first_alt alts (x :: a)) as E.
    { apply first_alt_ext. intros k Hk. apply prefix_before. by apply Hc. }
    destruct (first_alt alts (x :: a)) as [m|] eqn:Em.
    + destruct (first_alt_Some _ _ Em) as [Hin [a2 Ha2]].
      assert (m ≠ []) as Hm by (intros ->; done).
      rewrite Ha2 in *. rewrite <- app_assoc in *.
      rewrite (sub_match m (a2 ++ c :: b)), (sub_match m a2) by done.
      assert (length a2 < length (m ++ a2))%nat as Hlt.
      { rewrite length_app. destruct m; simpl; [done|lia]. }
      rewrite (IH _ Hlt a2 eq_refl).
      destruct (repl m); simpl; [|done].
      destruct (sub alts repl a2); simpl; [|done].
      destruct (sub alts repl b); simpl; [|done].
      by rewrite app_assoc.
    + simpl app in *. rewrite (sub_copy x (a ++ c :: b)), (sub_copy x a) by done.
      rewrite (IH (length a) ltac:(simpl; lia) a eq_refl).
      destruct (sub alts repl a); simpl; [|done].
      by destruct (sub alts repl b).
Qed.

End ReFacts.

(** ** Facts about ordered dictionaries and well-formed tables *)

Section DictFacts.
Import PyStr Dict.

Lemma distinct_NoDup (l : list str) : distinct l = true ↔ NoDup l.
Proof.
  induction l as [|v r IH]; simpl.
  - split; [intros _; constructor | done].
  - rewrite andb_true_iff, IH, NoDup_cons, forallb_forall. split.
    + intros [H ?]. split; [|done]. intros Hin.
      apply list_elem_of_In, H in Hin. rewrite bool_decide_eq_true_2 in Hin; done.
    + intros [H ?]. split; [|done]. intros w Hw%list_elem_of_In.
      apply negb_true_iff, bool_decide_eq_false_2. by intros <-.
Qed.

Lemma prefix_free_spec (l : list str) :
  prefix_free l = true →
  ∀ a b, a ∈ l → b ∈ l → a `prefix_of` b → a = b.
Proof.
  induction l as [|v r IH]; simpl; intros H a b Ha Hb Hp.
  - by apply not_elem_of_nil in Ha.
  - apply andb_true_iff in H as [H1 H2]. rewrite forallb_forall in H1.
    apply elem_of_cons in Ha as [->|Ha]; apply elem_of_cons in Hb as [->|Hb];
      [done | | | by apply IH].
    + apply list_elem_of_In, H1, andb_true_iff in Hb as [Hb _].
      apply negb_true_iff, startswith_false in Hb. done.
    + apply list_elem_of_In, H1, andb_true_iff in Ha as [_ Ha].
      apply negb_true_iff, startswith_false in Ha. done.
Qed.

Lemma prefix_free_NoDup (l : list str) : prefix_free l = true → NoDup l.
Proof.
  induction l as [|v r IH]; simpl; [constructor|].
  intros [H1 H2]%andb_true_iff. constructor; [|by apply IH].
  intros Hin. rewrite forallb_forall in H1.
  apply list_elem_of_In, H1, andb_true_iff in Hin as [Hin _].
  apply negb_true_iff, startswith_false in Hin. by apply Hin.
Qed.

Lemma set_fresh (d : dict) (k v : str) :
  k ∉ d.*1 → set d k v = d ++ [(k, v)].
Proof.
  induction d as [|[k' v'] d IH]; simpl; [done|].
  intros H. rewrite not_elem_of_cons in H. destruct H as [H1 H2].
  rewrite bool_decide_eq_false_2 by done. by rewrite IH.
Qed.

Lemma of_items_NoDup (l : list (str * str)) : NoDup l.*1 → of_items l = l.
Proof.
  unfold of_items. intros H.
  enough (∀ acc, NoDup (acc ++ l).*1 →
            foldl (λ d kv, set d kv.1 kv.2) acc l = acc ++ l) as G
    by (by apply (G [])).
  clear H. induction l as [|[k v] l IH]; intros acc H; simpl.
  - by rewrite app_nil_r.
  - rewrite set_fresh.
    + rewrite IH; rewrite <- app_assoc; done.
    + rewrite fmap_app, fmap_cons in H. apply NoDup_app in H as (_ & H & _).
      intros Hin. apply (H _ Hin). left.
Qed.

Lemma get_elem (d : dict) (k v : str) :
  NoDup d.*1 → (k, v) ∈ d → get d k = Some v.
Proof.
  induction d as [|[k' v'] d IH]; simpl; intros Hnd Hin.
  - by apply not_elem_of_nil in Hin.
  - apply NoDup_cons in Hnd as [Hk Hnd].
    apply elem_of_cons in Hin as [[= -> ->]|Hin].
    + by rewrite bool_decide_eq_true_2.
    + rewrite bool_decide_eq_false_2; [by apply IH|].
      intros ->. apply Hk. apply list_elem_of_fmap. by exists (k, v).
Qed.

End DictFacts.

(** ** The round trip of a well-formed table *)

Section Codec.
Import PyStr Re Dict.
Context (t : list (str * str)) (Hok : table_ok t = true).

Let rt : list (str * str) := (λ kv, (kv.2, kv.1)) <$> t.

Lemma table_keys_NoDup : NoDup t.*1.
Proof.
  unfold table_ok in Hok. rewrite !andb_true_iff in Hok.
  apply distinct_NoDup. tauto.
Qed.

Lemma table_keys_nonempty : [] ∉ t.*1.
Proof.
  unfold table_ok in Hok. rewrite !andb_true_iff in Hok.
  destruct Hok as [[[[_ H] _] _] _]. rewrite forallb_forall in H.
  intros Hin%list_elem_of_In. by apply H in Hin.
Qed.

Lemma table_amp : lit "&" ∈ t.*1.
Proof.
  unfold table_ok in Hok. rewrite !andb_true_iff in Hok.
  destruct Hok as [[[_ H] _] _]. by apply bool_decide_eq_true in H.
Qed.

Lemma table_values_amp (v : str) : v ∈ t.*2 → ∃ b, v = 38 :: b.
Proof.
  unfold table_ok in Hok. rewrite !andb_true_iff in Hok.
  destruct Hok as [[_ H] _]. rewrite forallb_forall in H.
  intros Hin%list_elem_of_In. apply H, startswith_prefix in Hin as [b ->].
  by exists b.
Qed.

Lemma table_values_prefix (a b : str) :
  a ∈ t.*2 → b ∈ t.*2 → a `prefix_of` b → a = b.
Proof.
  unfold table_ok in Hok. rewrite !andb_true_iff in Hok.
  apply prefix_free_spec. tauto.
Qed.

Lemma table_values_NoDup : NoDup t.*2.
Proof.
  unfold table_ok in Hok. rewrite !andb_true_iff in Hok.
  apply prefix_free_NoDup. tauto.
Qed.

Lemma rt_keys : rt.*1 = t.*2.
Proof. unfold rt. rewrite <- list_fmap_compose. done. Qed.

(** The reversed dictionary has the entries of the table, swapped, in
    the same order. *)
Lemma of_items_rt : of_items rt = rt.
Proof. apply of_items_NoDup. rewrite rt_keys. apply table_values_NoDup. Qed.

(** At the start of an entity the reverse pattern matches that entity. *)
Lemma first_alt_entity (v r : str) :
  v ∈ t.*2 → first_alt t.*2 (v ++ r) = Some v.
Proof.
  intros Hv. destruct (first_alt t.*2 (v ++ r)) as [m|] eqn:E.
  - destruct (first_alt_Some _ _ _ E) as [Hm Hp]. f_equal.
    destruct (prefix_weak_total m v (v ++ r) Hp) as [H|H];
      [by apply prefix_app_r | by apply table_values_prefix |].
    symmetry. by apply table_values_prefix.
  - exfalso. rewrite first_alt_None in E. apply (E v Hv). by apply prefix_app_r.
Qed.

Lemma table_roundtrip (x : str) :
  ∃ y, sub t.*1 (get t) x = Some y ∧ sub t.*2 (get rt) y = Some x.
Proof.
  remember (length x) as n eqn:Hn. revert x Hn.
  induction n as [n IH] using lt_wf_ind. intros x ->.
  destruct x as [|c x]; [by exists []|].
  destruct (first_alt t.*1 (c :: x)) as [m|] eqn:E.
  - destruct (first_alt_Some _ _ _ E) as [Hm [r Hr]].
    assert (m ≠ []) as Hne by (intros ->; by apply table_keys_nonempty).
    apply list_elem_of_fmap in Hm as [[k v] [Hk Hkv]]. simpl in Hk. subst k.
    rewrite Hr in *.
    assert (length r < length (m ++ r))%nat as Hlt.
    { rewrite length_app. destruct m; simpl; [done|lia]. }
    destruct (IH _ Hlt r eq_refl) as (y & Hy1 & Hy2).
    exists (v ++ y). rewrite sub_match by done.
    rewrite (get_elem _ _ _ table_keys_NoDup Hkv). simpl. rewrite Hy1. simpl.
    split; [done|].
    assert (v ∈ t.*2) as Hv by (apply list_elem_of_fmap; by exists (m, v)).
    rewrite sub_match.
    + rewrite (get_elem rt v m), Hy2; [done | |].
      * rewrite rt_keys. apply table_values_NoDup.
      * unfold rt. apply list_elem_of_fmap. by exists (m, v).
    + by apply first_alt_entity.
    + destruct (table_values_amp v Hv) as [b ->]. done.
  - assert (length x < length (c :: x))%nat as Hlt by (simpl; lia).
    destruct (IH _ Hlt x eq_refl) as (y & Hy1 & Hy2).
    exists (c :: y). rewrite sub_copy, Hy1 by done. split; [done|].
    rewrite sub_copy, Hy2; [done|].
    apply first_alt_None. intros k Hk Hp.
    destruct (table_values_amp k Hk) as [b ->].
    apply prefix_cons_inv_1 in Hp as <-.
    rewrite first_alt_None in E. apply (E (lit "&") table_amp).
    by apply prefix_cons, prefix_nil.
Qed.

End Codec.

Section EntityCodec.
Context {uni : nwUnicode}.

Lemma repDict_items : Dict.table_ok repItems = true → repDict = repItems.
Proof. intros H. apply of_items_NoDup. by apply table_keys_NoDup. Qed.

Lemma revDict_items :
  Dict.table_ok repItems = true →
  revDict = (λ kv, (kv.2, kv.1)) <$> repItems.
Proof.
  intros H. unfold revDict, Dict.items. rewrite repDict_items by done.
  by apply of_items_rt.
Qed.

Lemma encode_decode (x : str) :
  Dict.table_ok repItems = true →
  ∃ y : str, encode x = Some y ∧ decode y = Some x.
Proof.
  intros Hok. unfold encode, decode, reReplace, reReverse.
  rewrite revDict_items, repDict_items by done. unfold Dict.keys.
  rewrite rt_keys. by apply table_roundtrip.
Qed.


(** Property X6. On the converter object: when the markdown kept last is
    the text [doAutoReplace] produced, [doPostProcessing] puts the text before the
    replacement back in its place. *)
Lemma doPostProcessing_doAutoReplace (self self' obj : ToHtml) (ms : list str) :
  Dict.table_ok repItems = true →
  doAutoReplace self = Some self' →
  genMode obj ≠ M_PREVIEW → keepMarkdown obj = true →
  theMarkdown obj = ms ++ [theText self'] →
  doPostProcessing obj = Some (set_theMarkdown obj (ms ++ [theText self])).
Proof.
  intros Hok Hrep Hmode Hkeep Hmd.
  destruct (encode_decode (theText self) Hok) as (y & Hy1 & Hy2).
  unfold doAutoReplace in Hrep. rewrite Hy1 in Hrep. simpl in Hrep.
  injection Hrep as <-. cbn [set_theText theText] in Hmd.
  unfold doPostProcessing. rewrite bool_decide_eq_false_2 by done.
  rewrite Hkeep, Hmd, last_snoc. simpl. rewrite Hy2. simpl.
  by rewrite removelast_last.
Qed.

(** Claim C1. When the entity table is well formed (distinct non-empty
    keys, the ampersand among them; entities that start with an ampersand
    and of which none is a prefix of another), the reverse substitution of
    [doPostProcessing] undoes the forward substitution of [doAutoReplace]
    on every string, so in particular on the strings made of mapped
    characters only; neither substitution fails; and in both directions a
    character that occurs in no entry of the pattern is copied unchanged,
    the text on its two sides being substituted as on its own. *)
Theorem entity_codec_roundtrip :
  Dict.table_ok repItems = true →
  (∀ x : str, ∃ y : str, encode x = Some y ∧ decode y = Some x)
  ∧ (∀ (a b : str) (c : char),
       (∀ k, k ∈ reReplace → c ∉ k) →
       encode (a ++ c :: b)
       = ea ← encode a; eb ← encode b; Some (ea ++ c :: eb))
  ∧ (∀ (a b : str) (c : char),
       (∀ k, k ∈ reReverse → c ∉ k) →
       decode (a ++ c :: b)
       = da ← decode a; db ← decode b; Some (da ++ c :: db)).
Proof.
  intros Hok. split; [intros x; by apply encode_decode|].
  unfold encode, decode, reReplace, reReverse.
  rewrite revDict_items, repDict_items by done. unfold Dict.keys.
  rewrite rt_keys. split.
  - intros a b c Hc. apply sub_outside; [by apply table_keys_nonempty | done].
  - intros a b c Hc. apply sub_outside; [|done].
    intros Hin. by destruct (table_values_amp _ Hok _ Hin).
Qed.

End EntityCodec.

Example encode_escape_ordering :
  @encode unicodeValues (lit "<a & b>") = Some (lit "&lt;a &amp; b&gt;").
Proof. reflexivity. Qed.

Section Paragraphs.
Context {uni : nwUnicode} {labels : nwLabels} {keywords : nwKeyWords}
        {bits : TokenizerBits}.

Lemma hStyle_noFlags (self : ToHtml) (s : option N) :
  noFlags s = true → hStyle self s = [].
Proof.
  destruct s as [s|]; simpl; [|done]. intros ->%N.eqb_eq.
  unfold hStyle, aStyle. by destruct (cssStyles self).
Qed.

(** Claim C2. For the tokens Text "Hello ", Text "world." (no spans, no
    style flags) and an Empty token, the two text tokens leave the buffer
    ["Hello "; "world. "] (each right-trimmed, one space appended), the
    Empty token emits the single fragment "<p>Hello world.</p>\n" and
    resets buffer, style and hard-break flag, and that fragment is the
    result of [doConvert]. *)
Theorem paragraph_flush_on_empty (self : ToHtml) (l1 l2 l3 : Z)
    (s1 s2 s3 : option N) (t3 : str) (f3 : list (nat * nat * Fmt)) :
  let hello := mkToken T_TEXT l1 (lit "Hello ") [] s1 in
  let world := mkToken T_TEXT l2 (lit "world.") [] s2 in
  let empty := mkToken T_EMPTY l3 t3 f3 s3 in
  noFlags s1 = true → noFlags s2 = true →
  theTokens self = [hello; world; empty] →
  thisPar (runTokens self loopInit [hello; world])
    = [lit "Hello "; lit "world. "]
  ∧ runTokens self loopInit [hello; world; empty]
    = mkLoop [] None [lit "<p>Hello world.</p>" ++ nl] false
  ∧ theResult (doConvert self) = lit "<p>Hello world.</p>" ++ nl.
Proof.
  intros hello world empty H1 H2 Htok.
  assert (runTokens self loopInit [hello; world]
          = mkLoop [lit "Hello "; lit "world. "] (Some []) [] false) as E2.
  { unfold runTokens. simpl. unfold convertToken. simpl.
    rewrite (hStyle_noFlags self s1 H1). reflexivity. }
  assert (runTokens self loopInit [hello; world; empty]
          = mkLoop [] None [lit "<p>Hello world.</p>" ++ nl] false) as E3.
  { change [hello; world; empty] with ([hello; world] ++ [empty]).
    unfold runTokens in *. rewrite foldl_app, E2. simpl.
    unfold convertToken. simpl. by destruct (cssStyles self). }
  split; [rewrite E2; reflexivity|]. split; [exact E3|].
  unfold doConvert. rewrite Htok, E3.
  cbn [set_theResult genMode tmpResult]. by destruct (genMode self).
Qed.

End Paragraphs.

Section Spans.
Context {uni : nwUnicode} {labels : nwLabels} {keywords : nwKeyWords}
        {bits : TokenizerBits}.

Lemma applySpans_cons (mode : GenMode) (t : str) (x : nat * nat * Fmt)
    (xs : list (nat * nat * Fmt)) :
  applySpans mode t (x :: xs) = replaceSpan mode (applySpans mode t xs) x.
Proof. unfold applySpans. by rewrite reverse_cons, foldl_app. Qed.

Lemma applySpans_foldr (mode : GenMode) (t : str)
    (xs : list (nat * nat * Fmt)) :
  applySpans mode t xs = foldr (λ x acc, replaceSpan mode acc x) t xs.
Proof.
  induction xs as [|x xs IH]; [done|]. by rewrite applySpans_cons, IH.
Qed.

Lemma applySpans_spliceFrom (mode : GenMode)
    (spans : list (nat * nat * Fmt)) (off : nat) (text : str) :
  spansOk off (length text) spans = true →
  applySpans mode text spans
  = take off text ++ spliceFrom mode off text spans.
Proof.
  revert off. induction spans as [|[[p l] f] rest IH]; intros off H; simpl in *.
  - unfold applySpans. simpl. by rewrite take_drop.
  - apply andb_true_iff in H as [[H1%Nat.leb_le H2%Nat.leb_le]%andb_true_iff H3].
    rewrite applySpans_cons, (IH _ H3). unfold replaceSpan.
    assert (length (take (p + l) text) = (p + l)%nat) as Hlen
      by (rewrite length_take; lia).
    rewrite take_app_le by lia. rewrite take_take.
    rewrite drop_app_length' by done.
    replace (p `min` (p + l))%nat with p by lia.
    assert (take p text = take off text ++ take (p - off) (drop off text)) as ->.
    { rewrite <- (take_drop off text) at 1.
      rewrite take_app_ge by (rewrite length_take; lia).
      rewrite length_take.
      by replace (p - off `min` length text)%nat with (p - off)%nat by lia. }
    by rewrite <- app_assoc.
Qed.

Lemma spansOk_Sorted (spans : list (nat * nat * Fmt)) (off len : nat) :
  spansOk off len spans = true →
  Sorted le ((λ x, x.1.1) <$> spans) ∧ Forall (le off) ((λ x, x.1.1) <$> spans).
Proof.
  revert off. induction spans as [|[[p l] f] rest IH]; intros off H; simpl in *.
  - split; constructor.
  - apply andb_true_iff in H as [[H1%Nat.leb_le H2%Nat.leb_le]%andb_true_iff H3].
    destruct (IH _ H3) as [IH1 IH2]. split.
    + constructor; [done|]. destruct rest as [|[[p' l'] f'] rest]; constructor.
      simpl in *. apply Forall_cons in IH2 as [? _]. lia.
    + constructor; [done|]. eapply Forall_impl; [done|]. simpl. lia.
Qed.

(** Claim C3. For a text token whose spans are in ascending position
    order, do not overlap and lie inside the text: the spans are taken in
    descending position order (the last span of the list is applied
    first, the first one last), each turn replaces the substring [[xPos, xPos+xLen)] by the tag of its format kind, the result
    is the original text with every span replaced by its tag, the tags are
    the HTML4 ones in preview mode and the HTML5 ones otherwise, and that
    line, right-trimmed, goes to the paragraph buffer; with no span the
    line is the text itself. *)
Theorem applySpans_rightmost_first (self : ToHtml) (st : LoopState)
    (tok : Token) :
  tType tok = T_TEXT →
  spansOk 0 (length (tText tok)) (tFormat tok) = true →
  let mode := genMode self in
  Sorted (flip le) ((λ x, x.1.1) <$> reverse (tFormat tok))
  ∧ applySpans mode (tText tok) (tFormat tok)
    = foldr (λ x tTemp, replaceSpan mode tTemp x) (tText tok) (tFormat tok)
  ∧ (∀ (t : str) (xPos xLen : nat) (xFmt : Fmt),
       replaceSpan mode t (xPos, xLen, xFmt)
       = take xPos t ++ htmlTags mode xFmt ++ drop (xPos + xLen) t)
  ∧ applySpans mode (tText tok) (tFormat tok)
    = splice mode (tText tok) (tFormat tok)
  ∧ htmlTags M_PREVIEW <$> [FMT_B_B; FMT_B_E; FMT_I_B; FMT_I_E; FMT_D_B; FMT_D_E]
    = [lit "<b>"; lit "</b>"; lit "<i>"; lit "</i>";
       lit "<span style='text-decoration: line-through;'>"; lit "</span>"]
  ∧ (∀ m, m ≠ M_PREVIEW →
       htmlTags m <$> [FMT_B_B; FMT_B_E; FMT_I_B; FMT_I_E; FMT_D_B; FMT_D_E]
       = [lit "<strong>"; lit "</strong>"; lit "<em>"; lit "</em>";
          lit "<del>"; lit "</del>"])
  ∧ thisPar (convertToken self st tok)
    = thisPar st
      ++ [PyStr.rstrip (splice mode (tText tok) (tFormat tok))
          ++ (if PyStr.endswith (tText tok) (lit "  ")
              then lit "<br/>" else lit " ")]
  ∧ (tFormat tok = [] → splice mode (tText tok) (tFormat tok) = tText tok).
Proof.
  intros Hty Hok mode.
  assert (applySpans mode (tText tok) (tFormat tok)
          = splice mode (tText tok) (tFormat tok)) as Hsp
    by (by rewrite (applySpans_spliceFrom _ _ 0)).
  split_and!.
  - rewrite fmap_reverse. apply Sorted_reverse.
    by destruct (spansOk_Sorted _ _ _ Hok).
  - apply applySpans_foldr.
  - intros t xPos xLen xFmt. reflexivity.
  - exact Hsp.
  - reflexivity.
  - intros m Hm. by destruct m.
  - unfold convertToken. rewrite Hty. fold mode. rewrite Hsp.
    by destruct (PyStr.endswith (tText tok) (lit "  ")).
  - intros ->. unfold splice. simpl. done.
Qed.

End Spans.

Section Loop.
Context {uni : nwUnicode} {labels : nwLabels} {keywords : nwKeyWords}
        {bits : TokenizerBits}.
Context (self : ToHtml).

Lemma runTokens_app (st : LoopState) (a b : list Token) :
  runTokens self st (a ++ b) = runTokens self (runTokens self st a) b.
Proof. apply foldl_app. Qed.

Lemma runTokens_cons (st : LoopState) (tok : Token) (toks : list Token) :
  runTokens self st (tok :: toks) = runTokens self (convertToken self st tok) toks.
Proof. done. Qed.

(** The loop only appends to [tmpResult] and never reads it. *)
Lemma convertToken_withOutput (out : list str) (st : LoopState) (tok : Token) :
  convertToken self (withOutput out st) tok
  = withOutput out (convertToken self st tok).
Proof.
  unfold convertToken, withOutput.
  destruct (tType tok); cbn [thisPar parStyle tmpResult hasHardBreak];
    rewrite ?app_assoc; try done.
  - by destruct (0 <? length (thisPar st))%nat; rewrite ?app_assoc.
  - by destruct (doSynopsis self); cbn; rewrite ?app_assoc.
  - by destruct (doComments self); cbn; rewrite ?app_assoc.
  - by destruct (doKeywords self); cbn; rewrite ?app_assoc.
  - by destruct (PyStr.endswith _ _).
Qed.

Lemma runTokens_withOutput (out : list str) (toks : list Token) (st : LoopState) :
  runTokens self (withOutput out st) toks
  = withOutput out (runTokens self st toks).
Proof.
  revert st. induction toks as [|tok toks IH]; intros st; [done|].
  by rewrite !runTokens_cons, convertToken_withOutput, IH.
Qed.

Lemma runTokens_from (st : LoopState) (toks : list Token) :
  runTokens self st toks
  = withOutput (tmpResult st)
      (runTokens self (mkLoop (thisPar st) (parStyle st) [] (hasHardBreak st)) toks).
Proof.
  rewrite <- runTokens_withOutput. f_equal. unfold withOutput. cbn.
  rewrite app_nil_r. by destruct st.
Qed.

(** A token other than [T_EMPTY] reads nothing of the paragraph state to
    produce its output. *)
Lemma convertToken_output_only (st1 st2 : LoopState) (tok : Token) :
  notEmpty tok = true → tmpResult st1 = tmpResult st2 →
  tmpResult (convertToken self st1 tok) = tmpResult (convertToken self st2 tok).
Proof.
  unfold notEmpty, convertToken. intros H%negb_true_iff%bool_decide_eq_false E.
  destruct (tType tok); try done;
    try destruct (doSynopsis self); try destruct (doComments self);
    try destruct (doKeywords self);
    try destruct (PyStr.endswith (tText tok) (lit "  "));
    cbn [tmpResult]; by rewrite ?E.
Qed.

Lemma runTokens_output_only (toks : list Token) (st1 st2 : LoopState) :
  forallb notEmpty toks = true → tmpResult st1 = tmpResult st2 →
  tmpResult (runTokens self st1 toks) = tmpResult (runTokens self st2 toks).
Proof.
  revert st1 st2. induction toks as [|tok toks IH]; intros st1 st2 H E; [done|].
  simpl in H. apply andb_true_iff in H as [Ht H]. rewrite !runTokens_cons.
  apply IH; [done|]. by apply convertToken_output_only.
Qed.

Lemma convertToken_text (st : LoopState) (tok : Token) :
  isText tok = true →
  tmpResult (convertToken self st tok) = tmpResult st
  ∧ ∃ line, thisPar (convertToken self st tok) = thisPar st ++ [line].
Proof.
  intros H%bool_decide_eq_true. unfold convertToken. rewrite H.
  destruct (PyStr.endswith (tText tok) (lit "  ")); cbn; eauto.
Qed.

(** Before the next [T_EMPTY] token, the text tokens can be taken out of
    the token list without changing the output. *)
Lemma runTokens_drop_texts (tail : list Token) (st : LoopState) :
  forallb notEmpty tail = true →
  tmpResult (runTokens self st tail)
  = tmpResult (runTokens self st (List.filter (λ t, negb (isText t)) tail)).
Proof.
  revert st. induction tail as [|tok tail IH]; intros st H; [done|].
  simpl in H. apply andb_true_iff in H as [Ht H]. rewrite runTokens_cons.
  cbn [List.filter]. destruct (isText tok) eqn:E; cbn [negb].
  - rewrite <- IH by done. apply runTokens_output_only; [done|].
    by destruct (convertToken_text st tok E).
  - rewrite runTokens_cons. by apply IH.
Qed.

(** A token other than [T_EMPTY] keeps what the paragraph buffer holds
    and a hard break that was seen. *)
Lemma convertToken_keeps (st : LoopState) (tok : Token) :
  notEmpty tok = true →
  (∃ more, thisPar (convertToken self st tok) = thisPar st ++ more)
  ∧ (hasHardBreak st = true → hasHardBreak (convertToken self st tok) = true).
Proof.
  unfold notEmpty, convertToken. intros H%negb_true_iff%bool_decide_eq_false.
  destruct (tType tok); try done;
    try destruct (doSynopsis self); try destruct (doComments self);
    try destruct (doKeywords self);
    try destruct (PyStr.endswith (tText tok) (lit "  "));
    cbn [thisPar hasHardBreak]; (split; [|done]); eauto;
    exists []; by rewrite app_nil_r.
Qed.

Lemma runTokens_keeps (mid : list Token) (st : LoopState) :
  forallb notEmpty mid = true →
  (∃ more, thisPar (runTokens self st mid) = thisPar st ++ more)
  ∧ (hasHardBreak st = true → hasHardBreak (runTokens self st mid) = true).
Proof.
  revert st. induction mid as [|tok mid IH]; intros st H.
  - split; [exists []; by rewrite app_nil_r | done].
  - simpl in H. apply andb_true_iff in H as [Ht H]. rewrite runTokens_cons.
    destruct (convertToken_keeps st tok Ht) as [[m1 E1] E2].
    destruct (IH (convertToken self st tok) H) as [[m2 F1] F2].
    split; [|auto]. exists (m1 ++ m2). by rewrite F1, E1, <- app_assoc.
Qed.

(** The lines of the text tokens are still in the buffer at the end. *)
Lemma runTokens_buffer (tail : list Token) (st : LoopState) :
  forallb notEmpty tail = true → existsb isText tail = true →
  thisPar (runTokens self st tail) ≠ [].
Proof.
  revert st. induction tail as [|tok tail IH]; intros st H Hex; [done|].
  simpl in H, Hex. apply andb_true_iff in H as [Ht H]. rewrite runTokens_cons.
  destruct (isText tok) eqn:E.
  - destruct (convertToken_text st tok E) as [_ [line Hl]].
    destruct (runTokens_keeps tail (convertToken self st tok) H) as [[more Hm] _].
    rewrite Hm, Hl. intros [[? ?]%app_eq_nil _]%app_eq_nil. done.
  - by apply IH.
Qed.

Lemma doConvert_theResult :
  theResult (doConvert self)
  = List.concat (tmpResult (runTokens self loopInit (theTokens self))).
Proof. unfold doConvert. cbn. by destruct (genMode self). Qed.

(** Claim C4. A text token whose text ends with two spaces puts its
    right-trimmed line followed by "<br/>" (not by a space) in the
    paragraph buffer and sets the hard-break flag; whatever tokens other
    than Empty follow, the next Empty token emits a paragraph that holds
    that line and carries class='break' exactly when CSS styles are on. *)
Theorem hard_break_marker (st : LoopState) (tok emp : Token)
    (mid : list Token) (pre : str) :
  tType tok = T_TEXT → tText tok = pre ++ lit "  " →
  forallb notEmpty mid = true → tType emp = T_EMPTY →
  let line := PyStr.rstrip (applySpans (genMode self) (tText tok) (tFormat tok))
              ++ lit "<br/>" in
  let st1 := convertToken self st tok in
  let st2 := runTokens self st1 mid in
  thisPar st1 = thisPar st ++ [line]
  ∧ hasHardBreak st1 = true
  ∧ tmpResult st1 = tmpResult st
  ∧ (∃ more, thisPar st2 = thisPar st ++ line :: more)
  ∧ tmpResult (convertToken self st2 emp)
    = tmpResult st2
      ++ [lit "<p" ++ default (lit "") (parStyle st2)
          ++ (if cssStyles self then lit " class='break'" else lit "")
          ++ lit ">" ++ PyStr.rstrip (List.concat (thisPar st2))
          ++ lit "</p>" ++ nl].
Proof.
  intros Hty Htx Hmid Hemp line st1 st2.
  assert (PyStr.endswith (tText tok) (lit "  ") = true) as Hend.
  { apply endswith_suffix. rewrite Htx. by apply suffix_app_r. }
  assert (st1 = mkLoop (thisPar st ++ [line])
                  (match parStyle st with
                   | None => Some (hStyle self (tStyle tok)) | Some p => Some p end)
                  (tmpResult st) true) as E1.
  { unfold st1, convertToken. by rewrite Hty, Hend. }
  destruct (runTokens_keeps mid st1 Hmid) as [[more Hmore] Hbreak].
  fold st2 in Hmore, Hbreak. rewrite E1 in Hmore, Hbreak. cbn in Hmore, Hbreak.
  rewrite <- app_assoc in Hmore.
  split_and!; try (by rewrite E1). { by exists more. }
  assert ((0 <? length (thisPar st2))%nat = true) as Hlen.
  { rewrite Hmore, !length_app. simpl. apply Nat.ltb_lt. lia. }
  unfold convertToken. rewrite Hemp, (Hbreak eq_refl).
  cbn [tmpResult andb]. by rewrite Hlen.
Qed.

(** Claim C5. For a novel document outside preview mode a Heading1
    token is rendered as h1 with the title class and Heading2, 3, 4 tokens
    as h1, h2, h3 without it; in every other case the four levels are
    rendered as h1, h2, h3, h4 without the title class. *)
Theorem heading_promotion (st : LoopState) (tok : Token) :
  let frag (tag cls : str) :=
    lit "<" ++ tag ++ cls ++ hStyle self (tStyle tok) ++ lit ">"
    ++ aNm self (tLine tok)
    ++ PyStr.replace (tText tok) (lit "\\") (lit "<br/>")
    ++ lit "</" ++ tag ++ lit ">" ++ nl in
  let emits (f : str) :=
    convertToken self st tok
    = mkLoop (thisPar st) (parStyle st) (tmpResult st ++ [f]) (hasHardBreak st) in
  (isNovel self = true → genMode self ≠ M_PREVIEW →
     (tType tok = T_HEAD1 → emits (frag (lit "h1") (lit " class='title'")))
     ∧ (tType tok = T_HEAD2 → emits (frag (lit "h1") (lit "")))
     ∧ (tType tok = T_HEAD3 → emits (frag (lit "h2") (lit "")))
     ∧ (tType tok = T_HEAD4 → emits (frag (lit "h3") (lit ""))))
  ∧ (isNovel self = false ∨ genMode self = M_PREVIEW →
     (tType tok = T_HEAD1 → emits (frag (lit "h1") (lit "")))
     ∧ (tType tok = T_HEAD2 → emits (frag (lit "h2") (lit "")))
     ∧ (tType tok = T_HEAD3 → emits (frag (lit "h3") (lit "")))
     ∧ (tType tok = T_HEAD4 → emits (frag (lit "h4") (lit "")))).
Proof.
  intros frag emits. unfold emits, frag, convertToken, heading, h1Cl, h1, h2, h3, h4.
  split.
  - intros Hn Hm. assert (bumpTitles self = true) as ->.
    { unfold bumpTitles. rewrite Hn. by destruct (genMode self). }
    split_and!; by intros ->.
  - intros H. assert (bumpTitles self = false) as ->.
    { unfold bumpTitles. destruct H as [->| ->]; [done|]. by rewrite andb_false_r. }
    split_and!; by intros ->.
Qed.

End Loop.

Section Keywords.
Context {uni : nwUnicode} {labels : nwLabels} {keywords : nwKeyWords}
        {bits : TokenizerBits}.
Context (self : ToHtml).

(** Claim C6, amended. For a keyword line the index reports valid with
    at least two segments and whose first segment has a label in
    [KEY_NAME]: after the label, the tag keyword renders its first value
    as the named anchor [tag_<value>]; any other keyword renders every
    value as a hyperlink, to [#<kind>=<value>] in preview mode and to
    [#tag_<value>] otherwise, the links joined by ", ". *)
Theorem formatKeywords_known_label (tText bit0 v label : str)
    (vs : list str) (pos : list nat) :
  scanThis self (lit "@" ++ tText) = (true, bit0 :: v :: vs, pos) →
  KEY_NAME !! bit0 = Some label →
  let span := lit "<span class='tags'>" ++ label ++ lit ":</span> " in
  (bit0 = TAG_KEY →
     _formatKeywords self tText
     = span ++ lit "<a name='tag_" ++ v ++ lit "'>" ++ v ++ lit "</a>")
  ∧ (bit0 ≠ TAG_KEY → genMode self = M_PREVIEW →
     _formatKeywords self tText
     = span ++ PyStr.join (lit ", ")
         ((λ t, lit "<a href='#" ++ drop 1 bit0 ++ lit "=" ++ t ++ lit "'>"
                ++ t ++ lit "</a>") <$> v :: vs))
  ∧ (bit0 ≠ TAG_KEY → genMode self ≠ M_PREVIEW →
     _formatKeywords self tText
     = span ++ PyStr.join (lit ", ")
         ((λ t, lit "<a href='#tag_" ++ t ++ lit "'>" ++ t ++ lit "</a>")
          <$> v :: vs)).
Proof.
  intros Hscan Hlab span. unfold _formatKeywords. rewrite Hscan.
  cbn [negb orb]. rewrite bool_decide_eq_false_2 by done. rewrite Hlab.
  cbn [length Nat.ltb Nat.leb]. fold span. split_and!.
  - intros ->. rewrite bool_decide_eq_true_2 by done.
    reflexivity.
  - intros Hne Hm. rewrite bool_decide_eq_false_2 by done.
    rewrite bool_decide_eq_true_2 by done. reflexivity.
  - intros Hne Hm. rewrite !bool_decide_eq_false_2 by done.
    reflexivity.
Qed.

(** Claim C7. When the index reports a keyword line invalid or without
    segments, [_formatKeywords] returns the empty string; the loop goes
    on: the fragments of the tokens before and after are those of the
    document without the keyword token, between them stands only the
    empty keyword paragraph (when keywords are rendered), and the
    paragraph buffer, style and hard-break flag are the same. *)
Theorem unresolved_keyword_dropped (pre post : list Token) (tok : Token) :
  tType tok = T_KEYWORD →
  (scanThis self (lit "@" ++ tText tok)).1.1 = false
  ∨ (scanThis self (lit "@" ++ tText tok)).1.2 = [] →
  let before := runTokens self loopInit pre in
  let wrapper :=
    if doKeywords self
    then [lit "<p" ++ hStyle self (tStyle tok) ++ lit "></p>" ++ nl] else [] in
  let without := runTokens self loopInit (pre ++ post) in
  let with_kw := runTokens self loopInit (pre ++ tok :: post) in
  _formatKeywords self (tText tok) = lit ""
  ∧ ∃ rest : list str,
      tmpResult without = tmpResult before ++ rest
      ∧ tmpResult with_kw = tmpResult before ++ wrapper ++ rest
      ∧ thisPar with_kw = thisPar without
      ∧ parStyle with_kw = parStyle without
      ∧ hasHardBreak with_kw = hasHardBreak without.
Proof.
  intros Hty Hbad before wrapper without with_kw.
  assert (_formatKeywords self (tText tok) = lit "") as Hfmt.
  { unfold _formatKeywords.
    destruct (scanThis self (lit "@" ++ tText tok)) as [[isValid theBits] thePos].
    simpl in Hbad. destruct Hbad as [-> | ->]; [done|].
    by rewrite orb_true_r. }
  split; [done|].
  set (st0 := mkLoop (thisPar before) (parStyle before) [] (hasHardBreak before)).
  assert (convertToken self before tok
          = mkLoop (thisPar before) (parStyle before)
              (tmpResult before ++ wrapper) (hasHardBreak before)) as Hk.
  { unfold convertToken. rewrite Hty, Hfmt. unfold wrapper.
    destruct (doKeywords self); [done|]. rewrite app_nil_r. by destruct before. }
  exists (tmpResult (runTokens self st0 post)).
  unfold without, with_kw. rewrite !runTokens_app, runTokens_cons.
  fold before. rewrite Hk. clearbody before.
  rewrite (runTokens_from self before post).
  rewrite (runTokens_from self (mkLoop _ _ (tmpResult before ++ wrapper) _) post).
  cbn [withOutput thisPar parStyle tmpResult hasHardBreak]. fold st0.
  by rewrite <- app_assoc.
Qed.

(** Claim C8. When the token list ends without a [T_EMPTY] token after
    its last text tokens, the buffered text is not in the output: the
    result of [doConvert] is the one of the list with those text tokens
    taken out, while their lines are left in the paragraph buffer; and a
    title or heading token appends its heading fragment and leaves the
    paragraph buffer, style and hard-break flag as they are. *)
Theorem open_paragraph_not_flushed (toks tail : list Token)
    (st : LoopState) (tok : Token) :
  forallb notEmpty tail = true → existsb isText tail = true →
  isHeading tok = true →
  theResult (doConvert (set_theTokens self (toks ++ tail)))
    = theResult
        (doConvert
           (set_theTokens self
              (toks ++ List.filter (λ t, negb (isText t)) tail)))
  ∧ thisPar (runTokens self loopInit (toks ++ tail)) ≠ []
  ∧ ∃ tag cls : str,
      convertToken self st tok
      = mkLoop (thisPar st) (parStyle st)
          (tmpResult st
           ++ [lit "<" ++ tag ++ cls ++ hStyle self (tStyle tok) ++ lit ">"
               ++ aNm self (tLine tok)
               ++ PyStr.replace (tText tok) (lit "\\") (lit "<br/>")
               ++ lit "</" ++ tag ++ lit ">" ++ nl])
          (hasHardBreak st).
Proof.
  intros Htail Htext Hhead. split_and!.
  - rewrite !doConvert_theResult.
    change (theTokens (set_theTokens self (toks ++ tail))) with (toks ++ tail).
    change (theTokens (set_theTokens self
              (toks ++ List.filter (λ t, negb (isText t)) tail)))
      with (toks ++ List.filter (λ t, negb (isText t)) tail).
    change (runTokens (set_theTokens self (toks ++ tail)))
      with (runTokens self).
    change (runTokens (set_theTokens self
              (toks ++ List.filter (λ t, negb (isText t)) tail)))
      with (runTokens self).
    by rewrite !runTokens_app, runTokens_drop_texts.
  - rewrite runTokens_app. by apply runTokens_buffer.
  - unfold isHeading in Hhead. unfold convertToken, heading.
    destruct (tType tok); try done.
    + by exists (lit "h1"), (lit " class='title'").
    + by exists (h1 self), (h1Cl self).
    + by exists (h2 self), (lit "").
    + by exists (h3 self), (lit "").
    + by exists (h4 self), (lit "").
Qed.

(** Claim C10. When the first segment of a keyword line has no label in
    [KEY_NAME], [_formatKeywords] returns the empty string, whatever the
    index says of validity; hence a non-empty result comes only from a
    line reported valid whose first segment has a label. *)
Theorem formatKeywords_unknown_label :
  (∀ (tText bit0 : str) (isValid : bool) (values : list str) (pos : list nat),
     scanThis self (lit "@" ++ tText) = (isValid, bit0 :: values, pos) →
     KEY_NAME !! bit0 = None →
     _formatKeywords self tText = lit "")
  ∧ (∀ tText : str,
       _formatKeywords self tText ≠ lit "" →
       ∃ (bit0 label : str) (values : list str) (pos : list nat),
         scanThis self (lit "@" ++ tText) = (true, bit0 :: values, pos)
         ∧ KEY_NAME !! bit0 = Some label).
Proof.
  split.
  - intros tText bit0 isValid values pos Hscan Hlab.
    unfold _formatKeywords. rewrite Hscan, Hlab.
    by destruct (negb isValid || bool_decide (bit0 :: values = [])).
  - intros tText. unfold _formatKeywords.
    destruct (scanThis self (lit "@" ++ tText)) as [[isValid theBits] thePos].
    destruct isValid; [|done]. destruct theBits as [|bit0 values]; [done|].
    cbn [negb orb]. rewrite bool_decide_eq_false_2 by done.
    destruct (KEY_NAME !! bit0) as [label|] eqn:E; [|done].
    intros _. by exists bit0, label, values, thePos.
Qed.

End Keywords.

Section Tabs.
Import PyStr.
Context {labels : nwLabels} {keywords : nwKeyWords} {bits : TokenizerBits}.

Lemma replace_char (s new : str) (c : char) :
  replace s [c] new = s ≫= (λ x, if c =? x then new else [x]).
Proof.
  unfold replace. induction s as [|a s IH]; [done|].
  cbn [replace_from startswith length pred]. rewrite andb_true_r.
  csimpl. rewrite <- IH. by destruct (c =? a).
Qed.

Lemma bind_concat (f : char → str) (F : list str) :
  List.concat F ≫= f = List.concat ((λ l, l ≫= f) <$> F).
Proof.
  induction F as [|l F IH]; [done|]. csimpl. by rewrite bind_app, IH.
Qed.

Lemma replace_absent (s new : str) (c : char) :
  c ∉ s → replace s [c] new = s.
Proof.
  rewrite replace_char. induction s as [|a s IH]; [done|].
  intros [Hne Hs]%not_elem_of_cons. csimpl. rewrite IH by done.
  by rewrite (proj2 (N.eqb_neq c a)).
Qed.

Lemma replace_removes (s new : str) (c : char) :
  c ∉ new → c ∉ replace s [c] new.
Proof.
  rewrite replace_char. intros Hnew [y [Hy _]]%list_elem_of_bind.
  destruct (c =? y) eqn:E; [done|].
  apply list_elem_of_singleton in Hy. apply N.eqb_neq in E. done.
Qed.

Lemma replace_concat (F : list str) (new : str) (c : char) :
  List.concat ((λ l, replace l [c] new) <$> F) = replace (List.concat F) [c] new.
Proof.
  rewrite replace_char, bind_concat. f_equal. apply list_fmap_ext.
  intros i l _. apply replace_char.
Qed.

(** Claim C9, amended. [saveHTML5] concatenates the accumulated fragments
    in order, replaces every tab of the body by the entity "&#09;", trims
    the body on the right and wraps it in the fixed envelope, the project
    title inserted as it is. The run of eight "&nbsp;" comes from the
    separate step [replaceTabs] with its default arguments, which
    rewrites each fragment; saved after that step, the body has that run
    for every tab. [doConvert] appends its result to the fragments
    outside preview mode. *)
Theorem saveHTML5_assembly (self : ToHtml) :
  let theStyle :=
    getStyleSheet self ++ [lit "article {width: 800px; margin: 40px auto;}"] in
  let wrap (bodyText : str) :=
    lit "<!DOCTYPE html>" ++ nl ++ lit "<html>" ++ nl ++ lit "<head>" ++ nl
    ++ lit "<meta charset='utf-8'>" ++ nl
    ++ lit "<title>" ++ projName self ++ lit "</title>" ++ nl
    ++ lit "</head>" ++ nl ++ lit "<style>" ++ nl
    ++ join nl theStyle ++ nl
    ++ lit "</style>" ++ nl ++ lit "<body>" ++ nl ++ lit "<article>" ++ nl
    ++ bodyText ++ nl
    ++ lit "</article>" ++ nl ++ lit "</body>" ++ nl ++ lit "</html>" ++ nl in
  saveHTML5 self
    = wrap (rstrip (replace (List.concat (fullHTML self)) tab (lit "&#09;")))
  ∧ fullHTML (replaceTabs self 8 (lit "&nbsp;"))
    = (λ aLine, replace aLine tab (mul (lit "&nbsp;") 8)) <$> fullHTML self
  ∧ saveHTML5 (replaceTabs self 8 (lit "&nbsp;"))
    = wrap (rstrip (replace (List.concat (fullHTML self)) tab
                      (mul (lit "&nbsp;") 8)))
  ∧ saveHTML5 (replaceTabs self 8 (lit "&nbsp;")) = assembleSpec self
  ∧ fullHTML (doConvert self)
    = if bool_decide (genMode self = M_PREVIEW) then fullHTML self
      else fullHTML self ++ [theResult (doConvert self)].
Proof.
  intros theStyle wrap.
  assert (saveHTML5 (replaceTabs self 8 (lit "&nbsp;")) = assembleSpec self) as H.
  { unfold saveHTML5, assembleSpec, replaceTabs.
    cbn [set_fullHTML fullHTML projName].
    change (getStyleSheet (mkToHtml _ _ _ _ _ _ _ _ _ _ _ _ _ _ _ _ _ _ _))
      with (getStyleSheet self).
    unfold tab. rewrite replace_concat.
    rewrite (replace_absent (replace _ _ _)); [done|].
    apply replace_removes. vm_compute. intros H.
    repeat (apply elem_of_cons in H as [H|H]; [done|]).
    by apply not_elem_of_nil in H. }
  split_and!; [reflexivity | reflexivity | by rewrite H | done |].
  unfold doConvert. cbn [set_theResult genMode].
  by destruct (genMode self).
Qed.

End Tabs.

(** ** The theorems at concrete inputs *)

Lemma entity_codec_roundtrip_witness :
  Dict.table_ok (@repItems unicodeValues) = true
  ∧ ∃ y : str,
      @encode unicodeValues (lit "<a & b>" ++ [8212; 120; 160]) = Some y
      ∧ @decode unicodeValues y = Some (lit "<a & b>" ++ [8212; 120; 160]).
Proof.
  split; [reflexivity|].
  apply (proj1 (@entity_codec_roundtrip unicodeValues eq_refl)).
Defined.

Lemma paragraph_flush_on_empty_witness :
  noFlags (tStyle helloTok) = true
  ∧ noFlags (tStyle worldTok) = true
  ∧ theResult
      (@doConvert labelValues keywordValues bitValues
         (sampleObject M_EXPORT true false []
            [helloTok; worldTok; emptyTok] []))
    = lit "<p>Hello world.</p>" ++ nl.
Proof.
  split; [reflexivity|]. split; [reflexivity|].
  apply (@paragraph_flush_on_empty labelValues keywordValues bitValues
           (sampleObject M_EXPORT true false []
              [helloTok; worldTok; emptyTok] [])
           1 2 3 None (Some 0) None [] [] eq_refl eq_refl eq_refl).
Defined.

Lemma applySpans_rightmost_first_witness :
  tType spanTok = T_TEXT
  ∧ spansOk 0 (length (tText spanTok)) (tFormat spanTok) = true
  ∧ applySpans M_PREVIEW (tText spanTok) (tFormat spanTok)
    = lit "<i>bcd<b>f".
Proof.
  split; [reflexivity|]. split; [reflexivity|].
  refine (eq_trans (proj1 (proj2 (proj2 (proj2
    (@applySpans_rightmost_first labelValues keywordValues bitValues
       (sampleObject M_PREVIEW true false [] [] []) loopInit spanTok
       eq_refl eq_refl))))) _).
  reflexivity.
Defined.

Lemma hard_break_marker_witness :
  tType breakTok = T_TEXT
  ∧ tText breakTok = lit "one" ++ lit "  "
  ∧ forallb notEmpty [worldTok] = true
  ∧ tType emptyTok = T_EMPTY
  ∧ tmpResult
      (@runTokens labelValues keywordValues bitValues
         (sampleObject M_EXPORT true false [] [] []) loopInit
         [breakTok; worldTok; emptyTok])
    = [lit "<p class='break'>one<br/>world.</p>" ++ nl].
Proof.
  split; [reflexivity|]. split; [reflexivity|]. split; [reflexivity|].
  split; [reflexivity|].
  refine (eq_trans (proj2 (proj2 (proj2 (proj2
    (@hard_break_marker labelValues keywordValues bitValues
       (sampleObject M_EXPORT true false [] [] []) loopInit breakTok emptyTok
       [worldTok] (lit "one") eq_refl eq_refl eq_refl eq_refl))))) _).
  reflexivity.
Defined.

Lemma heading_promotion_witness :
  isNovel (sampleObject M_EXPORT true true [] [] []) = true
  ∧ genMode (sampleObject M_EXPORT true true [] [] []) ≠ M_PREVIEW
  ∧ tType head2Tok = T_HEAD2
  ∧ @convertToken labelValues keywordValues bitValues
      (sampleObject M_EXPORT true true [] [] []) loopInit head2Tok
    = mkLoop [] None [lit "<h1><a name='T000007'></a>Chapter</h1>" ++ nl] false.
Proof.
  split; [reflexivity|]. split; [discriminate|]. split; [reflexivity|].
  refine (eq_trans (proj1 (proj2 (proj1
    (@heading_promotion labelValues keywordValues bitValues
       (sampleObject M_EXPORT true true [] [] []) loopInit head2Tok)
    eq_refl ltac:(discriminate))) eq_refl) _).
  reflexivity.
Defined.

Lemma formatKeywords_known_label_witness :
  scanThis (sampleObject M_EXPORT true false [] [] [lit "@pov"; lit "alpha"])
    (lit "@" ++ lit "pov: alpha")
  = (true, [lit "@pov"; lit "alpha"], [])
  ∧ @KEY_NAME labelValues !! lit "@pov" = Some (lit "Point of View")
  ∧ @_formatKeywords labelValues keywordValues
      (sampleObject M_EXPORT true false [] [] [lit "@pov"; lit "alpha"])
      (lit "pov: alpha")
    = lit "<span class='tags'>Point of View:</span> <a href='#tag_alpha'>alpha</a>".
Proof.
  split; [reflexivity|]. split; [reflexivity|].
  refine (eq_trans (proj2 (proj2
    (@formatKeywords_known_label labelValues keywordValues
       (sampleObject M_EXPORT true false [] [] [lit "@pov"; lit "alpha"])
       (lit "pov: alpha") (lit "@pov") (lit "alpha") (lit "Point of View")
       [] [] eq_refl eq_refl)) ltac:(discriminate) ltac:(discriminate)) _).
  reflexivity.
Defined.

Lemma unresolved_keyword_dropped_witness :
  tType keywordTok = T_KEYWORD
  ∧ ((scanThis (sampleObject M_EXPORT true false [] [] [])
        (lit "@" ++ tText keywordTok)).1.1 = false
     ∨ (scanThis (sampleObject M_EXPORT true false [] [] [])
          (lit "@" ++ tText keywordTok)).1.2 = [])
  ∧ @_formatKeywords labelValues keywordValues
      (sampleObject M_EXPORT true false [] [] []) (tText keywordTok)
    = lit "".
Proof.
  split; [reflexivity|]. split; [left; reflexivity|].
  apply (proj1
    (@unresolved_keyword_dropped labelValues keywordValues bitValues
       (sampleObject M_EXPORT true false [] [] [])
       [helloTok] [emptyTok] keywordTok eq_refl (or_introl eq_refl))).
Defined.

Lemma open_paragraph_not_flushed_witness :
  forallb notEmpty [helloTok; head2Tok] = true
  ∧ existsb isText [helloTok; head2Tok] = true
  ∧ isHeading head2Tok = true
  ∧ theResult
      (@doConvert labelValues keywordValues bitValues
         (set_theTokens (sampleObject M_EXPORT true false [] [] [])
            ([emptyTok] ++ [helloTok; head2Tok])))
    = theResult
        (@doConvert labelValues keywordValues bitValues
           (set_theTokens (sampleObject M_EXPORT true false [] [] [])
              ([emptyTok] ++ [head2Tok]))).
Proof.
  split; [reflexivity|]. split; [reflexivity|]. split; [reflexivity|].
  apply (proj1
    (@open_paragraph_not_flushed labelValues keywordValues bitValues
       (sampleObject M_EXPORT true false [] [] [])
       [emptyTok] [helloTok; head2Tok] loopInit head2Tok
       eq_refl eq_refl eq_refl)).
Defined.

Lemma formatKeywords_unknown_label_witness :
  scanThis
    (sampleObject M_EXPORT true false [] [] [lit "@mention"; lit "alpha"])
    (lit "@" ++ lit "mention: alpha")
  = (true, [lit "@mention"; lit "alpha"], [])
  ∧ @KEY_NAME labelValues !! lit "@mention" = None
  ∧ @_formatKeywords labelValues keywordValues
      (sampleObject M_EXPORT true false [] [] [lit "@mention"; lit "alpha"])
      (lit "mention: alpha")
    = lit "".
Proof.
  split; [reflexivity|]. split; [reflexivity|].
  apply (proj1
    (@formatKeywords_unknown_label labelValues keywordValues
       (sampleObject M_EXPORT true false [] [] [lit "@mention"; lit "alpha"]))
    (lit "mention: alpha") (lit "@mention") true [lit "alpha"] []
    eq_refl eq_refl).
Defined.

(** ** Where the specification and the code differ *)

(** Claim C6 as stated fails: the index reports the line valid with the
    two segments "@mention" and "alpha", "@mention" has no label, and the
    rendering holds no link for "alpha" (it is empty). *)
Lemma keyword_links_counterexample :
  ¬ (∀ (self : ToHtml) (tText bit0 v : str) (vs : list str) (pos : list nat),
       scanThis self (lit "@" ++ tText) = (true, bit0 :: v :: vs, pos) →
       ∃ a b : str,
         @_formatKeywords labelValues keywordValues self tText
         = a ++ @keywordLinks keywordValues self bit0 (v :: vs) ++ b).
Proof.
  intros H.
  destruct (H (sampleObject M_EXPORT true false [] []
                 [lit "@mention"; lit "alpha"])
              (lit "mention: alpha") (lit "@mention") (lit "alpha") [] []
              eq_refl) as (a & b & E).
  vm_compute in E. by destruct a.
Qed.

(** Claim C9 as stated fails: [saveHTML5] on the single fragment "a<TAB>b"
    writes the body "a&#09;b", not "a" followed by eight "&nbsp;" and
    "b". *)
Lemma saveHTML5_tab_counterexample :
  saveHTML5 (sampleObject M_EXPORT true false [lit "a" ++ tab ++ lit "b"] [] [])
  ≠ assembleSpec
      (sampleObject M_EXPORT true false [lit "a" ++ tab ++ lit "b"] [] [])
  ∧ saveHTML5
      (sampleObject M_EXPORT true false [lit "a" ++ tab ++ lit "b"] [] [])
    = envelope (lit "Sample")
        (PyStr.join nl
           (getStyleSheet (sampleObject M_EXPORT true false [] [] [])
            ++ [lit "article {width: 800px; margin: 40px auto;}"]))
        (lit "a&#09;b").
Proof.
  split; [|reflexivity].
  intros E. apply (f_equal length) in E. vm_compute in E. discriminate.
Qed.

(** * Further properties of the class *)

(** ** The entity substitution *)

Section SubFacts.
Import PyStr Re Dict.

Lemma sub_from_total (alts : list str) (repl : str → option str) :
  (∀ m, m ∈ alts → is_Some (repl m)) →
  ∀ (s : str) (n : nat), is_Some (sub_from alts repl n s).
Proof.
  intros Hrepl. induction s as [|c s IH]; intros n; [by eexists|].
  destruct n as [|n]; simpl; [|apply IH].
  destruct (first_alt alts (c :: s)) as [m|] eqn:E.
  - destruct (first_alt_Some _ _ _ E) as [Hm _].
    destruct (Hrepl m Hm) as [v ->]. simpl.
    destruct (IH (pred (length m))) as [out ->]. by eexists.
  - destruct (IH 0%nat) as [out ->]. by eexists.
Qed.

Lemma get_keys_Some (d : dict) (k : str) : k ∈ d.*1 → is_Some (get d k).
Proof.
  induction d as [|[k' v] d IH]; simpl; [by intros ?%not_elem_of_nil|].
  intros H. destruct (bool_decide (k' = k)) eqn:E; [by eexists|].
  apply bool_decide_eq_false in E. apply elem_of_cons in H as [->|H]; [done|].
  by apply IH.
Qed.

Lemma sub_app_single (alts : list str) (repl : str → option str) (a b : str) :
  singleChars alts = true →
  sub alts repl (a ++ b)
  = ea ← sub alts repl a; eb ← sub alts repl b; Some (ea ++ eb).
Proof.
  intros Hs. unfold singleChars in Hs. rewrite forallb_forall in Hs.
  assert (∀ k, k ∈ alts → ∃ k0, k = [k0]) as Hone.
  { intros k Hk%list_elem_of_In%Hs%Nat.eqb_eq.
    destruct k as [|k0 [|??]]; try done. by exists k0. }
  induction a as [|c a IH].
  - simpl. by destruct (sub alts repl b).
  - assert (first_alt alts ((c :: a) ++ b) = first_alt alts (c :: a)) as E.
    { apply first_alt_ext. intros k Hk. destruct (Hone k Hk) as [k0 ->].
      simpl. split; intros ->%prefix_cons_inv_1; by apply prefix_cons, prefix_nil. }
    destruct (first_alt alts (c :: a)) as [m|] eqn:Em.
    + destruct (first_alt_Some _ _ _ Em) as [Hm Hp].
      destruct (Hone m Hm) as [m0 ->]. apply prefix_cons_inv_1 in Hp as ->.
      pose proof (sub_match alts repl [c] (a ++ b)) as H1.
      pose proof (sub_match alts repl [c] a) as H2.
      simpl app in *. rewrite H1, H2, IH by done.
      destruct (repl [c]); simpl; [|done].
      destruct (sub alts repl a); simpl; [|done].
      destruct (sub alts repl b); simpl; [|done].
      by rewrite app_assoc.
    + simpl app in *. rewrite (sub_copy _ _ c (a ++ b)), (sub_copy _ _ c a), IH by done.
      destruct (sub alts repl a); simpl; [|done].
      by destruct (sub alts repl b).
Qed.

End SubFacts.

Section TableFacts.
Import PyStr Re Dict.
Context (t : list (str * str)) (Hok : table_ok t = true).

(** A character that is a key and occurs in no value is absent from the
    substituted text. *)
Lemma sub_char_absent (c : char) (x y : str) :
  [c] ∈ t.*1 → (∀ v, v ∈ t.*2 → c ∉ v) →
  sub t.*1 (get t) x = Some y → c ∉ y.
Proof.
  intros Hkey Hval. remember (length x) as n eqn:Hn. revert x y Hn.
  induction n as [n IH] using lt_wf_ind. intros x y -> Hy.
  destruct x as [|a x]; [by injection Hy as <-; apply not_elem_of_nil|].
  destruct (first_alt t.*1 (a :: x)) as [m|] eqn:E.
  - destruct (first_alt_Some _ _ _ E) as [Hm [r Hr]].
    assert (m ≠ []) as Hne by (intros ->; by apply (table_keys_nonempty t Hok)).
    apply list_elem_of_fmap in Hm as [[k v] [Hk Hkv]]. simpl in Hk. subst k.
    rewrite Hr in *. rewrite sub_match in Hy by done.
    rewrite (get_elem _ _ _ (table_keys_NoDup t Hok) Hkv) in Hy. simpl in Hy.
    destruct (sub t.*1 (get t) r) as [out|] eqn:Er; [|done].
    injection Hy as <-. rewrite elem_of_app. intros [Hc|Hc].
    + apply (Hval v); [|done]. apply list_elem_of_fmap. by exists (m, v).
    + assert (length r < length (m ++ r))%nat as Hlt.
      { rewrite length_app. destruct m; simpl; [done|lia]. }
      by apply (IH _ Hlt r out eq_refl Er).
  - rewrite sub_copy in Hy by done.
    destruct (sub t.*1 (get t) x) as [out|] eqn:Er; [|done].
    injection Hy as <-. intros [->|Hc]%elem_of_cons.
    + rewrite first_alt_None in E. apply (E [a] Hkey).
      by apply prefix_cons, prefix_nil.
    + by apply (IH (length x) ltac:(simpl; lia) x out eq_refl Er).
Qed.

End TableFacts.

Section CodecMore.
Context {uni : nwUnicode}.

(** Property X1. Whatever the constants are, the two substitutions never
    fail: a matched text is always a key of the dictionary the callback
    looks it up in, so [doAutoReplace] always returns. *)
Theorem entity_substitution_total (x : str) (self : ToHtml) :
  is_Some (encode x) ∧ is_Some (decode x) ∧ is_Some (doAutoReplace self).
Proof.
  assert (∀ z, is_Some (encode z)) as He.
  { intros z. apply sub_from_total. intros m. apply get_keys_Some. }
  split_and!; [apply He | |].
  - apply sub_from_total. intros m. apply get_keys_Some.
  - unfold doAutoReplace. destruct (He (theText self)) as [t ->]. by eexists.
Qed.

(** Property X2. When the table is well formed and no entity holds an
    angle bracket, the encoded text holds neither "<" nor ">". *)
Theorem encode_no_angle_bracket (x y : str) :
  Dict.table_ok repItems = true → angleFree repItems = true →
  encode x = Some y → (60 ∉ y) ∧ (62 ∉ y).
Proof.
  intros Hok Hfree. unfold encode, reReplace.
  rewrite repDict_items by done. unfold Dict.keys. intros Hy.
  unfold angleFree in Hfree. rewrite forallb_forall in Hfree.
  assert (∀ v c, v ∈ repItems.*2 → c ∈ v → c ≠ 60 ∧ c ≠ 62) as Hv.
  { intros v c Hin%list_elem_of_In%Hfree Hc. rewrite forallb_forall in Hin.
    apply list_elem_of_In, Hin, andb_true_iff in Hc as [H1 H2].
    apply negb_true_iff, N.eqb_neq in H1, H2. done. }
  split.
  - apply (sub_char_absent _ Hok 60 x y); [left | | done].
    intros v Hin Hc. by destruct (Hv v 60 Hin Hc).
  - apply (sub_char_absent _ Hok 62 x y); [right; left | | done].
    intros v Hin Hc. by destruct (Hv v 62 Hin Hc).
Qed.

(** Property X3. When every key of the pattern is one character, the
    encoding of a concatenation is the concatenation of the encodings. *)
Theorem encode_app (a b : str) :
  singleChars reReplace = true →
  encode (a ++ b) = ea ← encode a; eb ← encode b; Some (ea ++ eb).
Proof. intros H. unfold encode. by apply sub_app_single. Qed.

(** Property X4. With a well-formed table, two texts with the same
    encoding are equal. *)
Theorem encode_injective (x x' : str) :
  Dict.table_ok repItems = true → encode x = encode x' → x = x'.
Proof.
  intros Hok E.
  destruct (encode_decode x Hok) as (y & Hy1 & Hy2).
  destruct (encode_decode x' Hok) as (y' & Hy1' & Hy2').
  rewrite Hy1, Hy1' in E. injection E as <-. congruence.
Qed.

(** Property X5. [doPostProcessing] leaves the object as it is in preview
    mode or when the markdown is not kept; otherwise it fails on an empty
    markdown list (the [IndexError] of [theMarkdown[-1]]) and, when the
    list has a last entry, decodes that entry and changes nothing else. *)
Theorem doPostProcessing_last_entry (obj : ToHtml) :
  (genMode obj = M_PREVIEW ∨ keepMarkdown obj = false →
     doPostProcessing obj = Some obj)
  ∧ (genMode obj ≠ M_PREVIEW → keepMarkdown obj = true →
       theMarkdown obj = [] → doPostProcessing obj = None)
  ∧ (genMode obj ≠ M_PREVIEW → keepMarkdown obj = true →
       ∀ (ms : list str) (md : str), theMarkdown obj = ms ++ [md] →
       ∃ t : str, decode md = Some t
         ∧ doPostProcessing obj = Some (set_theMarkdown obj (ms ++ [t]))).
Proof.
  unfold doPostProcessing. split_and!.
  - intros [-> | ->]; [done|]. by destruct (bool_decide _).
  - intros Hm -> ->. by rewrite bool_decide_eq_false_2.
  - intros Hm -> ms md ->. rewrite bool_decide_eq_false_2 by done.
    rewrite last_snoc. simpl.
    assert (is_Some (decode md)) as [t Ht].
    { apply sub_from_total. intros m. apply get_keys_Some. }
    exists t. rewrite Ht. simpl. by rewrite removelast_last.
Qed.

End CodecMore.

(** ** The token loop *)

Section LoopMore.
Context {uni : nwUnicode} {labels : nwLabels} {keywords : nwKeyWords}
        {bits : TokenizerBits}.
Context (self : ToHtml).

Lemma theResult_doConvert_tokens (toks : list Token) :
  theResult (doConvert (set_theTokens self toks))
  = List.concat (tmpResult (runTokens self loopInit toks)).
Proof. by rewrite doConvert_theResult. Qed.

Lemma convertToken_empty (st : LoopState) (emp : Token) :
  tType emp = T_EMPTY →
  ∃ out, convertToken self st emp = withOutput (tmpResult st ++ out) loopInit
         ∧ (thisPar st = [] → out = []).
Proof.
  intros H. unfold convertToken. rewrite H. unfold withOutput, loopInit.
  cbn [thisPar parStyle tmpResult hasHardBreak].
  destruct (thisPar st) as [|l ls]; cbn [length Nat.ltb Nat.leb].
  - exists []. by rewrite !app_nil_r.
  - exists [lit "<p" ++ default (lit "") (parStyle st)
             ++ (if hasHardBreak st && cssStyles self
                 then lit " class='break'" else lit "")
             ++ lit ">" ++ PyStr.rstrip (List.concat (l :: ls))
             ++ lit "</p>" ++ nl].
    by rewrite !app_nil_r.
Qed.

(** Property X7. An Empty token separates the rendering: the result for
    the tokens up to and including it, followed by the result for the
    tokens after it, is the result for the whole list. *)
Theorem empty_token_splits (a b : list Token) (emp : Token) :
  tType emp = T_EMPTY →
  theResult (doConvert (set_theTokens self (a ++ emp :: b)))
  = theResult (doConvert (set_theTokens self (a ++ [emp])))
    ++ theResult (doConvert (set_theTokens self b)).
Proof.
  intros H. rewrite !theResult_doConvert_tokens.
  rewrite !runTokens_app, !runTokens_cons. cbn [runTokens foldl].
  destruct (convertToken_empty (runTokens self loopInit a) emp H) as [out [-> _]].
  rewrite runTokens_withOutput. cbn [withOutput tmpResult loopInit].
  by rewrite app_nil_r, concat_app.
Qed.

Lemma convertToken_newline (st : LoopState) (tok : Token) :
  Forall (λ f, nl `suffix_of` f) (tmpResult st) →
  Forall (λ f, nl `suffix_of` f) (tmpResult (convertToken self st tok)).
Proof.
  intros H. unfold convertToken, heading, _formatSynopsis, _formatComments.
  assert (∀ f, Forall (λ f, nl `suffix_of` f) (tmpResult st ++ [f ++ nl])) as Hf.
  { intros f. apply Forall_app. split; [done|]. constructor; [|constructor].
    by apply suffix_app_r. }
  destruct (tType tok); cbn [tmpResult];
    try destruct (0 <? length (thisPar st))%nat;
    try destruct (doSynopsis self); try destruct (doComments self);
    try destruct (doKeywords self);
    try destruct (bool_decide (genMode self = M_PREVIEW));
    try destruct (PyStr.endswith (tText tok) (lit "  "));
    cbn [tmpResult]; try done;
    repeat rewrite (app_assoc _ _ nl) || rewrite (app_assoc _ _ (_ ++ nl));
    try apply Hf.
Qed.

(** Property X8. Every fragment the loop emits ends with a newline, so
    the result of [doConvert] is empty or ends with a newline. *)
Theorem result_ends_with_newline :
  Forall (λ f, nl `suffix_of` f)
    (tmpResult (runTokens self loopInit (theTokens self)))
  ∧ (theResult (doConvert self) = [] ∨ nl `suffix_of` theResult (doConvert self)).
Proof.
  assert (∀ toks st, Forall (λ f, nl `suffix_of` f) (tmpResult st) →
            Forall (λ f, nl `suffix_of` f) (tmpResult (runTokens self st toks))) as H.
  { induction toks as [|tok toks IH]; intros st Hst; [done|].
    rewrite runTokens_cons. by apply IH, convertToken_newline. }
  specialize (H (theTokens self) loopInit ltac:(constructor)).
  split; [done|]. rewrite doConvert_theResult.
  destruct (tmpResult (runTokens self loopInit (theTokens self))) as [|f fs _] using rev_ind;
    [by left|].
  right. rewrite concat_app. simpl. rewrite app_nil_r.
  apply Forall_app in H as [_ H]. apply Forall_cons in H as [H _].
  by apply suffix_app_r.
Qed.

End LoopMore.

Section ParagraphMore.
Context {uni : nwUnicode} {labels : nwLabels} {keywords : nwKeyWords}
        {bits : TokenizerBits}.
Context (self : ToHtml).

Lemma convertToken_isText (st : LoopState) (tok : Token) :
  isText tok = true →
  convertToken self st tok
  = mkLoop (thisPar st ++ [lineOf self tok])
      (match parStyle st with
       | None => Some (hStyle self (tStyle tok)) | Some p => Some p end)
      (tmpResult st) (hasHardBreak st || hardBreak tok).
Proof.
  intros H%bool_decide_eq_true. unfold convertToken, lineOf, hardBreak.
  rewrite H. destruct (PyStr.endswith (tText tok) (lit "  "));
    by rewrite ?orb_true_r, ?orb_false_r.
Qed.

Lemma runTokens_isText (texts : list Token) (st : LoopState) :
  forallb isText texts = true →
  runTokens self st texts
  = mkLoop (thisPar st ++ (lineOf self <$> texts))
      (match parStyle st, texts with
       | None, t0 :: _ => Some (hStyle self (tStyle t0))
       | p, _ => p end)
      (tmpResult st) (hasHardBreak st || existsb hardBreak texts).
Proof.
  revert st. induction texts as [|t0 ts IH]; intros st H.
  - simpl. rewrite app_nil_r, orb_false_r. by destruct st as [? [?|] ? ?].
  - simpl in H. apply andb_true_iff in H as [H0 H].
    rewrite runTokens_cons, convertToken_isText, IH by done.
    cbn [thisPar parStyle tmpResult hasHardBreak fmap list_fmap existsb].
    rewrite <- app_assoc, orb_assoc. f_equal.
    destruct (parStyle st); by destruct ts.
Qed.

(** Property X9. A run of text tokens closed by an Empty token renders
    as exactly one paragraph: its style attribute is the one of the first
    text token, it has class='break' when some line ends with two spaces
    and CSS styles are on, its content is the joined lines trimmed on the
    right; the loop state is reset. *)
Theorem paragraph_of_text_tokens (t0 emp : Token) (ts : list Token) :
  forallb isText (t0 :: ts) = true → tType emp = T_EMPTY →
  runTokens self loopInit (t0 :: ts ++ [emp])
  = mkLoop [] None
      [lit "<p" ++ hStyle self (tStyle t0)
       ++ (if existsb hardBreak (t0 :: ts) && cssStyles self
           then lit " class='break'" else lit "")
       ++ lit ">"
       ++ PyStr.rstrip (List.concat (lineOf self <$> t0 :: ts))
       ++ lit "</p>" ++ nl]
      false.
Proof.
  intros Htexts Hemp.
  change (t0 :: ts ++ [emp]) with ((t0 :: ts) ++ [emp]).
  rewrite runTokens_app, (runTokens_isText _ _ Htexts).
  cbn [runTokens foldl]. unfold convertToken. rewrite Hemp.
  cbn [thisPar parStyle tmpResult hasHardBreak loopInit app orb default
       fmap list_fmap length Nat.ltb Nat.leb].
  reflexivity.
Qed.

Lemma convertToken_disabled (st : LoopState) (tok : Token) :
  enabled self tok = false → convertToken self st tok = st.
Proof.
  unfold enabled, convertToken. destruct (tType tok); try done; by intros ->.
Qed.

(** Property X10. Synopsis, comment and keyword tokens whose rendering is
    switched off leave no trace: the loop ends in the state it reaches on
    the token list without them. *)
Theorem disabled_tokens_skipped (toks : list Token) (st : LoopState) :
  runTokens self st toks = runTokens self st (List.filter (enabled self) toks).
Proof.
  revert st. induction toks as [|tok toks IH]; intros st; [done|].
  rewrite runTokens_cons. cbn [List.filter].
  destruct (enabled self tok) eqn:E.
  - by rewrite runTokens_cons, IH.
  - by rewrite convertToken_disabled, IH.
Qed.


End ParagraphMore.

Section StylesMore.
Context {uni : nwUnicode} {labels : nwLabels} {keywords : nwKeyWords}
        {bits : TokenizerBits}.

Lemma hStyle_css_off (self : ToHtml) (s : option N) :
  cssStyles self = false → hStyle self s = lit "".
Proof. intros H. unfold hStyle, aStyle. rewrite H. by destruct s. Qed.

Lemma convertToken_css_off (self : ToHtml) (st : LoopState) (tok : Token) :
  cssStyles self = false →
  convertToken self st (clearStyle tok) = convertToken self st tok.
Proof.
  intros H. unfold convertToken. cbn [clearStyle tType tLine tText tFormat tStyle].
  by rewrite !(hStyle_css_off self _ H).
Qed.

(** Property X12. After [setStyles(False)] the style flags of the tokens
    have no effect: the result is the one for the tokens without style. *)
Theorem styles_off_ignores_flags (self : ToHtml) (toks : list Token) :
  theResult (doConvert (set_theTokens (setStyles self false) toks))
  = theResult
      (doConvert (set_theTokens (setStyles self false) (clearStyle <$> toks))).
Proof.
  rewrite !doConvert_theResult.
  cbn [set_theTokens theTokens].
  change (runTokens (set_theTokens (setStyles self false) toks))
    with (runTokens (setStyles self false)).
  change (runTokens (set_theTokens (setStyles self false) (clearStyle <$> toks)))
    with (runTokens (setStyles self false)).
  f_equal. f_equal. generalize loopInit.
  induction toks as [|tok toks IH]; intros st; [done|].
  cbn [fmap list_fmap]. rewrite !runTokens_cons.
  rewrite convertToken_css_off by done. apply IH.
Qed.

End StylesMore.

Section SpansMore.

Lemma spliceFrom_length (mode : GenMode) (spans : list (nat * nat * Fmt))
    (off : nat) (text : str) :
  spansOk off (length text) spans = true → (off ≤ length text)%nat →
  (length (spliceFrom mode off text spans) + sumLen spans
   = length text - off + sumTags mode spans)%nat.
Proof.
  revert off. induction spans as [|[[p l] f] rest IH]; intros off H Hoff.
  - simpl. rewrite length_drop. unfold sumLen, sumTags. simpl. lia.
  - simpl in H.
    apply andb_true_iff in H as [[H1%Nat.leb_le H2%Nat.leb_le]%andb_true_iff H3].
    specialize (IH (p + l)%nat H3 H2).
    change (sumLen ((p, l, f) :: rest)) with (l + sumLen rest)%nat.
    change (sumTags mode ((p, l, f) :: rest))
      with (length (htmlTags mode f) + sumTags mode rest)%nat.
    cbn [spliceFrom]. rewrite !length_app, length_take, length_drop. lia.
Qed.

(** Property X13. For well-formed spans the line after span application
    has the length of the text, minus the characters the spans take out,
    plus the characters of the tags put in. *)
Theorem applySpans_length (mode : GenMode) (text : str)
    (spans : list (nat * nat * Fmt)) :
  spansOk 0 (length text) spans = true →
  (length (applySpans mode text spans) + sumLen spans
   = length text + sumTags mode spans)%nat.
Proof.
  intros H. rewrite (applySpans_spliceFrom mode spans 0 text H).
  pose proof (spliceFrom_length mode spans 0 text H ltac:(lia)) as E.
  rewrite length_app, length_take. lia.
Qed.

End SpansMore.

Section AccumulateMore.
Context {uni : nwUnicode} {labels : nwLabels} {keywords : nwKeyWords}
        {bits : TokenizerBits}.
Context (self : ToHtml).

(** The object [self] with other accumulated documents, result and
    tokens. *)
Let variant (html : list str) (res : str) (toks : list Token) : ToHtml :=
  set_fullHTML (set_theResult (set_theTokens self toks) res) html.

Let rendered (toks : list Token) : str :=
  theResult (doConvert (set_theTokens self toks)).

Lemma doConvert_variant (html : list str) (res : str) (tk toks : list Token) :
  genMode self ≠ M_PREVIEW →
  doConvert (set_theTokens (variant html res tk) toks)
  = variant (html ++ [rendered toks]) (rendered toks) toks.
Proof.
  intros Hm. unfold rendered. rewrite doConvert_theResult.
  unfold doConvert, variant.
  cbn [set_theTokens set_theResult set_fullHTML genMode theTokens theResult fullHTML].
  rewrite bool_decide_eq_false_2 by done. reflexivity.
Qed.

Lemma renderAll_variant (docs : list (list Token)) (html : list str)
    (res : str) (tk : list Token) :
  genMode self ≠ M_PREVIEW →
  fullHTML (renderAll (variant html res tk) docs) = html ++ (rendered <$> docs).
Proof.
  intros Hm. revert html res tk.
  induction docs as [|toks docs IH]; intros html res tk.
  - simpl. by rewrite app_nil_r.
  - unfold renderAll in *. cbn [foldl]. rewrite doConvert_variant by done.
    rewrite IH. cbn [fmap list_fmap]. by rewrite <- app_assoc.
Qed.

(** Property X14. Outside preview mode, documents rendered one after the
    other on one object are accumulated in that order, and each one is
    what it renders to on its own: no document depends on the ones
    rendered before. *)
Theorem renderAll_accumulates (docs : list (list Token)) :
  genMode self ≠ M_PREVIEW →
  fullHTML (renderAll self docs)
  = fullHTML self
    ++ ((λ toks, theResult (doConvert (set_theTokens self toks))) <$> docs).
Proof.
  intros Hm.
  assert (self = variant (fullHTML self) (theResult self) (theTokens self)) as E
    by (by destruct self).
  rewrite E at 1. by rewrite renderAll_variant.
Qed.

Lemma renderAll_variant_shape (docs : list (list Token)) (html : list str)
    (res : str) (tk : list Token) :
  genMode self ≠ M_PREVIEW →
  ∃ (res' : str) (tk' : list Token),
    renderAll (variant html res tk) docs
    = variant (html ++ (rendered <$> docs)) res' tk'.
Proof.
  intros Hm. revert html res tk.
  induction docs as [|toks docs IH]; intros html res tk.
  - exists res, tk. simpl. by rewrite app_nil_r.
  - unfold renderAll in *. cbn [foldl]. rewrite doConvert_variant by done.
    destruct (IH (html ++ [rendered toks]) (rendered toks) toks) as (r & t & ->).
    exists r, t. cbn [fmap list_fmap]. by rewrite <- app_assoc.
Qed.

Lemma saveHTML5_renderAll (docs : list (list Token)) :
  genMode self ≠ M_PREVIEW →
  saveHTML5 (renderAll self docs)
  = envelope (projName self)
      (PyStr.join nl
         (getStyleSheet self
          ++ [lit "article {width: 800px; margin: 40px auto;}"]))
      (PyStr.rstrip
         (PyStr.replace
            (List.concat
               (fullHTML self
                ++ ((λ toks, theResult (doConvert (set_theTokens self toks)))
                    <$> docs)))
            tab (lit "&#09;"))).
Proof.
  intros Hm.
  assert (self = variant (fullHTML self) (theResult self) (theTokens self)) as E
    by (by destruct self).
  rewrite E at 1.
  destruct (renderAll_variant_shape docs (fullHTML self) (theResult self)
              (theTokens self) Hm) as (r & t & ->).
  reflexivity.
Qed.

Lemma sum_list_lengths (F : list str) :
  sum_list (length <$> F) = length (List.concat F).
Proof.
  induction F as [|l F IH]; [done|]. simpl. rewrite length_app, <- IH.
  reflexivity.
Qed.

Lemma fullHTML_doConvert :
  fullHTML (doConvert self)
  = if bool_decide (genMode self = M_PREVIEW) then fullHTML self
    else fullHTML self ++ [theResult (doConvert self)].
Proof. unfold doConvert. cbn [set_theResult genMode]. by destruct (genMode self). Qed.

(** Property X16. [getFullResultSize] is the length of the concatenated
    accumulated documents; [doConvert] adds the length of its result to it
    outside preview mode and leaves it in preview mode, in particular
    after [setPreview]; it is 0 after construction. *)
Theorem getFullResultSize_doConvert (base : ToHtml) (c s : bool) :
  getFullResultSize self = length (List.concat (fullHTML self))
  ∧ getFullResultSize (doConvert self)
    = (if bool_decide (genMode self = M_PREVIEW) then getFullResultSize self
       else getFullResultSize self + length (theResult (doConvert self)))%nat
  ∧ getFullResultSize (doConvert (setPreview self c s)) = getFullResultSize self
  ∧ getFullResultSize (__init__ base) = 0%nat.
Proof.
  split_and!.
  - apply sum_list_lengths.
  - unfold getFullResultSize. rewrite fullHTML_doConvert.
    destruct (bool_decide (genMode self = M_PREVIEW)); [done|].
    rewrite !sum_list_lengths, concat_app, length_app. simpl.
    by rewrite app_nil_r.
  - reflexivity.
  - reflexivity.
Qed.

End AccumulateMore.

(** Property X15. After construction, rendering a list of documents and
    saving writes the envelope around the concatenation of their
    renderings, tabs replaced by "&#09;" and trimmed on the right. *)
Theorem saveHTML5_after_build {labels : nwLabels} {keywords : nwKeyWords}
    {bits : TokenizerBits} (base : ToHtml) (docs : list (list Token)) :
  saveHTML5 (renderAll (__init__ base) docs)
  = envelope (projName base)
      (PyStr.join nl
         (getStyleSheet (__init__ base)
          ++ [lit "article {width: 800px; margin: 40px auto;}"]))
      (PyStr.rstrip
         (PyStr.replace
            (List.concat
               ((λ toks,
                   theResult (doConvert (set_theTokens (__init__ base) toks)))
                <$> docs))
            tab (lit "&#09;"))).
Proof.
  rewrite saveHTML5_renderAll by done. reflexivity.
Qed.

Section TabsMore.
Import PyStr.

Lemma noTab_spec (s : str) : noTab s = true ↔ 9 ∉ s.
Proof.
  unfold noTab. rewrite forallb_forall. split.
  - intros H Hin%list_elem_of_In%H. done.
  - intros H c Hc%list_elem_of_In. apply negb_true_iff, N.eqb_neq. by intros ->.
Qed.

Lemma mul_noTab (s : str) (n : nat) : 9 ∉ s → 9 ∉ mul s n.
Proof.
  intros H. unfold mul. induction n as [|n IH]; simpl; [apply not_elem_of_nil|].
  rewrite elem_of_app. tauto.
Qed.

(** Property X17. When the replacement holds no tab, [replaceTabs] leaves
    no tab in any accumulated document, keeps their number, and a second
    call changes nothing. *)
Theorem replaceTabs_no_tab_left (self : ToHtml) (nSpaces : nat) (spaceChar : str) :
  noTab spaceChar = true →
  Forall (λ aLine, 9 ∉ aLine) (fullHTML (replaceTabs self nSpaces spaceChar))
  ∧ length (fullHTML (replaceTabs self nSpaces spaceChar)) = length (fullHTML self)
  ∧ replaceTabs (replaceTabs self nSpaces spaceChar) nSpaces spaceChar
    = replaceTabs self nSpaces spaceChar.
Proof.
  intros H%noTab_spec. pose proof (mul_noTab spaceChar nSpaces H) as Hm.
  assert (Forall (λ aLine, 9 ∉ aLine)
            (fullHTML (replaceTabs self nSpaces spaceChar))) as Hall.
  { unfold replaceTabs. cbn [set_fullHTML fullHTML]. apply Forall_fmap, Forall_true.
    intros l. by apply replace_removes. }
  split_and!; [done | |].
  - unfold replaceTabs. cbn [set_fullHTML fullHTML]. by rewrite length_fmap.
  - unfold replaceTabs at 1. unfold set_fullHTML.
    replace ((λ aLine, replace aLine tab (mul spaceChar nSpaces))
               <$> fullHTML (replaceTabs self nSpaces spaceChar))
      with (fullHTML (replaceTabs self nSpaces spaceChar)).
    + by destruct (replaceTabs self nSpaces spaceChar).
    + symmetry. rewrite <- (list_fmap_id (fullHTML _)) at 2.
      apply Forall_fmap_ext_1. eapply Forall_impl; [exact Hall|].
      intros l Hl. by apply replace_absent.
Qed.

Lemma bind_delete (l : str) (c : char) :
  l ≫= (λ x, if c =? x then [] else [x]) = List.filter (λ x, negb (x =? c)) l.
Proof.
  induction l as [|x l IH]; [done|]. csimpl. rewrite IH, (N.eqb_sym x c).
  by destruct (c =? x).
Qed.

(** Property X18. [replaceTabs] with zero spaces deletes the tabs and
    keeps every other character. *)
Theorem replaceTabs_zero (self : ToHtml) (spaceChar : str) :
  fullHTML (replaceTabs self 0 spaceChar)
  = List.filter (λ c, negb (c =? 9)) <$> fullHTML self.
Proof.
  unfold replaceTabs. cbn [set_fullHTML fullHTML]. apply list_fmap_ext.
  intros _ l _. unfold tab. rewrite replace_char. apply bind_delete.
Qed.

End TabsMore.

Section KeywordsMore.
Context {labels : nwLabels} {keywords : nwKeyWords}.

(** Property X19. A valid keyword line with a known label and no value
    renders as the label alone. *)
Theorem formatKeywords_label_only (self : ToHtml) (tText bit0 label : str)
    (pos : list nat) :
  scanThis self (lit "@" ++ tText) = (true, [bit0], pos) →
  KEY_NAME !! bit0 = Some label →
  _formatKeywords self tText
  = lit "<span class='tags'>" ++ label ++ lit ":</span> ".
Proof.
  intros Hscan Hlab. unfold _formatKeywords. rewrite Hscan.
  cbn [negb orb]. rewrite bool_decide_eq_false_2 by done. by rewrite Hlab.
Qed.

End KeywordsMore.

(** ** The further theorems at concrete inputs *)

Lemma encode_no_angle_bracket_witness :
  Dict.table_ok (@repItems unicodeValues) = true
  ∧ angleFree (@repItems unicodeValues) = true
  ∧ @encode unicodeValues (lit "<b>") = Some (lit "&lt;b&gt;")
  ∧ (60 ∉ lit "&lt;b&gt;") ∧ (62 ∉ lit "&lt;b&gt;").
Proof.
  split; [reflexivity|]. split; [reflexivity|]. split; [reflexivity|].
  apply (@encode_no_angle_bracket unicodeValues (lit "<b>") (lit "&lt;b&gt;")
           eq_refl eq_refl eq_refl).
Defined.

Lemma encode_app_witness :
  singleChars (@reReplace unicodeValues) = true
  ∧ @encode unicodeValues (lit "a<" ++ lit "&b") = Some (lit "a&lt;&amp;b").
Proof.
  split; [reflexivity|].
  refine (eq_trans
    (@encode_app unicodeValues (lit "a<") (lit "&b") eq_refl) _).
  reflexivity.
Defined.

Lemma encode_injective_witness :
  Dict.table_ok (@repItems unicodeValues) = true
  ∧ @encode unicodeValues (lit "a<b") = @encode unicodeValues (lit "a" ++ lit "<b")
  ∧ lit "a<b" = lit "a" ++ lit "<b".
Proof.
  split; [reflexivity|]. split; [reflexivity|].
  apply (@encode_injective unicodeValues (lit "a<b") (lit "a" ++ lit "<b")
           eq_refl eq_refl).
Defined.

Lemma doPostProcessing_doAutoReplace_witness :
  Dict.table_ok (@repItems unicodeValues) = true
  ∧ @doAutoReplace unicodeValues (set_theText (markdownObject []) (lit "a<b"))
    = Some (set_theText (markdownObject []) (lit "a&lt;b"))
  ∧ genMode (markdownObject [lit "x"; lit "a&lt;b"]) ≠ M_PREVIEW
  ∧ keepMarkdown (markdownObject [lit "x"; lit "a&lt;b"]) = true
  ∧ @doPostProcessing unicodeValues (markdownObject [lit "x"; lit "a&lt;b"])
    = Some (markdownObject [lit "x"; lit "a<b"]).
Proof.
  split; [reflexivity|]. split; [reflexivity|]. split; [discriminate|].
  split; [reflexivity|].
  apply (@doPostProcessing_doAutoReplace unicodeValues
           (set_theText (markdownObject []) (lit "a<b"))
           (set_theText (markdownObject []) (lit "a&lt;b"))
           (markdownObject [lit "x"; lit "a&lt;b"]) [lit "x"]
           eq_refl eq_refl ltac:(discriminate) eq_refl eq_refl).
Defined.

Lemma doPostProcessing_last_entry_witness :
  genMode (markdownObject []) ≠ M_PREVIEW
  ∧ keepMarkdown (markdownObject []) = true
  ∧ theMarkdown (markdownObject []) = []
  ∧ @doPostProcessing unicodeValues (markdownObject []) = None.
Proof.
  split; [discriminate|]. split; [reflexivity|]. split; [reflexivity|].
  apply (proj1 (proj2
    (@doPostProcessing_last_entry unicodeValues (markdownObject [])))
    ltac:(discriminate) eq_refl eq_refl).
Defined.

Lemma empty_token_splits_witness :
  tType emptyTok = T_EMPTY
  ∧ theResult
      (@doConvert labelValues keywordValues bitValues
         (set_theTokens (sampleObject M_EXPORT true false [] [] [])
            ([helloTok] ++ emptyTok :: [head2Tok])))
    = theResult
        (@doConvert labelValues keywordValues bitValues
           (set_theTokens (sampleObject M_EXPORT true false [] [] [])
              ([helloTok] ++ [emptyTok])))
      ++ theResult
           (@doConvert labelValues keywordValues bitValues
              (set_theTokens (sampleObject M_EXPORT true false [] [] [])
                 [head2Tok])).
Proof.
  split; [reflexivity|].
  apply (@empty_token_splits labelValues keywordValues bitValues
           (sampleObject M_EXPORT true false [] [] [])
           [helloTok] [head2Tok] emptyTok eq_refl).
Defined.

Lemma paragraph_of_text_tokens_witness :
  forallb isText [breakTok; worldTok] = true
  ∧ tType emptyTok = T_EMPTY
  ∧ @runTokens labelValues keywordValues bitValues
      (sampleObject M_EXPORT true false [] [] []) loopInit
      (breakTok :: [worldTok] ++ [emptyTok])
    = mkLoop [] None [lit "<p class='break'>one<br/>world.</p>" ++ nl] false.
Proof.
  split; [reflexivity|]. split; [reflexivity|].
  refine (eq_trans
    (@paragraph_of_text_tokens labelValues keywordValues bitValues
       (sampleObject M_EXPORT true false [] [] [])
       breakTok emptyTok [worldTok] eq_refl eq_refl) _).
  reflexivity.
Defined.


Lemma applySpans_length_witness :
  spansOk 0 (length (tText spanTok)) (tFormat spanTok) = true
  ∧ (length (applySpans M_EXPORT (tText spanTok) (tFormat spanTok))
     + sumLen (tFormat spanTok)
     = length (tText spanTok) + sumTags M_EXPORT (tFormat spanTok))%nat.
Proof.
  split; [reflexivity|].
  apply (applySpans_length M_EXPORT (tText spanTok) (tFormat spanTok) eq_refl).
Defined.

Lemma renderAll_accumulates_witness :
  genMode (__init__ (sampleObject M_PREVIEW true false [] [] [])) ≠ M_PREVIEW
  ∧ fullHTML
      (@renderAll labelValues keywordValues bitValues
         (__init__ (sampleObject M_PREVIEW true false [] [] []))
         [[helloTok; worldTok; emptyTok]; [head2Tok]])
    = [lit "<p>Hello world.</p>" ++ nl;
       lit "<h2><a name='T000007'></a>Chapter</h2>" ++ nl].
Proof.
  split; [discriminate|].
  refine (eq_trans
    (@renderAll_accumulates labelValues keywordValues bitValues
       (__init__ (sampleObject M_PREVIEW true false [] [] []))
       [[helloTok; worldTok; emptyTok]; [head2Tok]] ltac:(discriminate)) _).
  reflexivity.
Defined.

Lemma replaceTabs_no_tab_left_witness :
  noTab (lit "&nbsp;") = true
  ∧ Forall (λ aLine, 9 ∉ aLine)
      (fullHTML
         (replaceTabs
            (sampleObject M_EXPORT true false [lit "a" ++ tab ++ lit "b"] [] [])
            8 (lit "&nbsp;"))).
Proof.
  split; [reflexivity|].
  apply (proj1
    (replaceTabs_no_tab_left
       (sampleObject M_EXPORT true false [lit "a" ++ tab ++ lit "b"] [] [])
       8 (lit "&nbsp;") eq_refl)).
Defined.

Lemma formatKeywords_label_only_witness :
  scanThis (sampleObject M_EXPORT true false [] [] [lit "@pov"])
    (lit "@" ++ lit "pov:")
  = (true, [lit "@pov"], [])
  ∧ @KEY_NAME labelValues !! lit "@pov" = Some (lit "Point of View")
  ∧ @_formatKeywords labelValues keywordValues
      (sampleObject M_EXPORT true false [] [] [lit "@pov"]) (lit "pov:")
    = lit "<span class='tags'>Point of View:</span> ".
Proof.
  split; [reflexivity|]. split; [reflexivity|].
  apply (@formatKeywords_label_only labelValues keywordValues
           (sampleObject M_EXPORT true false [] [] [lit "@pov"])
           (lit "pov:") (lit "@pov") (lit "Point of View") []
           eq_refl eq_refl).
Defined.
